(** * LetsExtract cleaner: the row-cleaning pipeline of [cleaner.py]

    A shallow embedding of [DataCleaner] (cleaner.py) with the rule set of
    config.py, and the properties of the pipeline stated in the
    specification.

    Layout: Python strings, the rule set, the data frame with its masks,
    the cleaner's state and methods, and the sample sheets first; then the
    general lemmas; then one theorem per property of the specification.

    Modelling choices.  Strings are lists of code points.  A cell is a text
    or missing.  The frame read from the sheet has any columns; after the
    projection its rows are records of the four required cells.  A boolean
    mask carries its dtype, because pandas selects rows only with a key it
    recognises as boolean.  [self.stats] is a record of optional entries.
    A method is a function from the cleaner to the cleaner and either a
    result or the exception raised.  The float of the percentage is kept as
    the exact rational. *)

From Stdlib Require Import ZArith QArith Strings.String Strings.Ascii
  Numbers.DecimalString.
From stdpp Require Import base tactics option list.

Local Open Scope Z_scope.

(** ** Python strings

    A Python [str] is a sequence of Unicode code points.  String literals of
    the source are written as Rocq literals (UTF-8 bytes) and decoded. *)

Definition pystr := list N.

Fixpoint utf8_decode (bs : list N) : pystr :=
  match bs with
  | [] => []
  | b :: rest =>
    if (b <? 128)%N then b :: utf8_decode rest
    else if (b <? 224)%N then
      match rest with
      | b1 :: rest1 => ((b - 192) * 64 + (b1 - 128))%N :: utf8_decode rest1
      | _ => [b]
      end
    else if (b <? 240)%N then
      match rest with
      | b1 :: b2 :: rest2 =>
        ((b - 224) * 4096 + (b1 - 128) * 64 + (b2 - 128))%N :: utf8_decode rest2
      | _ => [b]
      end
    else
      match rest with
      | b1 :: b2 :: b3 :: rest3 =>
        ((b - 240) * 262144 + (b1 - 128) * 4096 + (b2 - 128) * 64 + (b3 - 128))%N
          :: utf8_decode rest3
      | _ => [b]
      end
  end.

Definition py (s : string) : pystr :=
  utf8_decode (map N_of_ascii (list_ascii_of_string s)).

(** [str.isspace] of one code point: the code points [str.strip()] removes. *)
Definition is_space (c : N) : bool :=
  ((9 <=? c) && (c <=? 13) || (28 <=? c) && (c <=? 32)
   || (c =? 133) || (c =? 160) || (c =? 5760)
   || (8192 <=? c) && (c <=? 8202)
   || (c =? 8232) || (c =? 8233) || (c =? 8239) || (c =? 8287)
   || (c =? 12288))%N.

Fixpoint lstrip (s : pystr) : pystr :=
  match s with
  | [] => []
  | c :: s' => if is_space c then lstrip s' else s
  end.

Definition rstrip (s : pystr) : pystr := rev (lstrip (rev s)).

(** [s.strip()] *)
Definition strip (s : pystr) : pystr := rstrip (lstrip s).

(** Lower-casing of one code point, for the alphabets the rule set is
    written in: Basic Latin, Latin-1 and Cyrillic.  Other code points are
    left as they are. *)
Definition lower_cp (c : N) : N :=
  (if (65 <=? c) && (c <=? 90) then c + 32
   else if (192 <=? c) && (c <=? 222) && negb (c =? 215) then c + 32
   else if (1024 <=? c) && (c <=? 1039) then c + 80
   else if (1040 <=? c) && (c <=? 1071) then c + 32
   else c)%N.

(** [s.lower()] *)
Definition lower (s : pystr) : pystr := map lower_cp s.

(** [s.startswith(p)] *)
Fixpoint startswith (s p : pystr) {struct p} : bool :=
  match p, s with
  | [], _ => true
  | _ :: _, [] => false
  | a :: p', b :: s' => (a =? b)%N && startswith s' p'
  end.

(** [s.endswith(suffix)] *)
Definition endswith (s suffix : pystr) : bool :=
  startswith (rev s) (rev suffix).

(** [sub in s] *)
Fixpoint contains (sub s : pystr) : bool :=
  startswith s sub ||
  match s with
  | [] => false
  | _ :: s' => contains sub s'
  end.

(** [sep.join(parts)] *)
Fixpoint join (sep : pystr) (parts : list pystr) : pystr :=
  match parts with
  | [] => []
  | [p] => p
  | p :: rest => p ++ sep ++ join sep rest
  end.

(** [str(n)] for an [int]. *)
Definition str_int (n : Z) : pystr :=
  py (NilZero.string_of_int (Z.to_int n)).

(** The first code point of [s], when there is one, is not a space. *)
Definition head_not_space (s : pystr) : Prop :=
  match s with
  | [] => True
  | c :: _ => is_space c = false
  end.

(** A word: a non-empty string that neither starts nor ends with a
    space.  Looking for a word in [s] or in [s.strip()] is the same. *)
Definition is_word (s : pystr) : bool :=
  match s, rev s with
  | a :: _, b :: _ => negb (is_space a) && negb (is_space b)
  | _, _ => false
  end.

(** ** Rule set (config.py) *)

Definition RUSSIAN_ZONES : list pystr :=
  Eval vm_compute in [py ".ru"; py ".рф"; py ".su"].

Definition SEARCH_ENGINE_DOMAINS : list pystr :=
  Eval vm_compute in
  [ py "search.yahoo"; py "search.brave"; py "google.com"; py "google.ru";
    py "yandex.ru/search"; py "bing.com"; py "duckduckgo.com" ].

Definition REQUIRED_COLUMNS : list pystr :=
  Eval vm_compute in
  [ py "Значение"; py "Домен"; py "Заголовок"; py "META Description" ].

(** ** Data frame

    A cell read from the sheet is a text or missing ([NaN]); numbers and
    dates are left out.  The frame as read has any columns. *)

Inductive cell : Type :=
  | Text (s : pystr)
  | NaN.

#[global] Instance cell_eq_dec : EqDecision cell.
Proof. solve_decision. Defined.

(** One element of [series.astype(str)]: a missing cell becomes the text
    "nan". *)
Definition str_nan : pystr := Eval vm_compute in py "nan".

Definition astype_str (c : cell) : pystr :=
  match c with
  | Text s => s
  | NaN => str_nan
  end.

Record DataFrame : Type := mkDataFrame {
  columns : list pystr;
  data : list (list cell)
}.

(** A row of the projected frame: columns "Значение", "Домен", "Заголовок",
    "META Description". *)
Record Row : Type := mkRow {
  Value : cell;
  Domain : cell;
  Title : cell;
  MetaDescription : cell
}.

#[global] Instance Row_eq_dec : EqDecision Row.
Proof. solve_decision. Defined.

Definition Table := list Row.

(** The frame between the stages.  After [df[REQUIRED_COLUMNS]] it has the
    four required columns ([Rows]).  [NoColumns] is the frame without any
    column or row that pandas returns from [df[key]] when [key] is an empty
    series that is not boolean (see [getitem_mask]). *)
Inductive Frame : Type :=
  | Rows (rows : Table)
  | NoColumns.

Definition rows_of (df : Frame) : Table :=
  match df with
  | Rows rows => rows
  | NoColumns => []
  end.

(** [len(df)] *)
Definition len {A} (l : list A) : Z := Z.of_nat (length l).

(** Position of a column label. *)
Fixpoint get_loc (name : pystr) (cols : list pystr) : option nat :=
  match cols with
  | [] => None
  | c :: cols' => if decide (c = name) then Some O else S <$> get_loc name cols'
  end.

(** A series of truth values, with its dtype. *)
Inductive dtype : Type := bool_dtype | object_dtype.

Record Mask : Type := mkMask {
  mask_dtype : dtype;
  mask_values : list bool
}.

(** [series.apply(func)] for a [func] that returns [bool], over a series of
    dtype object.  pandas infers the dtype bool from the results; for an
    empty series it calls nothing and returns an empty series of the dtype
    of the input ([SeriesApply.apply_empty_result]). *)
Definition series_apply (func : pystr → bool) (series : list pystr) : Mask :=
  match series with
  | [] => mkMask object_dtype []
  | _ :: _ => mkMask bool_dtype (map func series)
  end.

(** [~mask] *)
Definition invert (mask : Mask) : Mask :=
  mkMask (mask_dtype mask) (map negb (mask_values mask)).

(** The result of a comparison or of [&]: always of dtype bool. *)
Definition bool_mask (values : list bool) : Mask := mkMask bool_dtype values.

(** [pandas.core.common.is_bool_indexer]: a series of dtype object counts as
    a boolean key only if it is a non-empty array of bools
    ([lib.is_bool_array] is [False] for an empty array). *)
Definition is_bool_indexer (key : Mask) : bool :=
  match mask_dtype key, mask_values key with
  | bool_dtype, _ => true
  | object_dtype, [] => false
  | object_dtype, _ :: _ => true
  end.

(** The rows of [rows] at the positions where [mask] is [True]. *)
Fixpoint boolean_index {A} (rows : list A) (mask : list bool) : list A :=
  match rows, mask with
  | r :: rows', b :: mask' =>
    if b then r :: boolean_index rows' mask' else boolean_index rows' mask'
  | _, _ => []
  end.

(** [df[key]] for a series [key]: the rows selected by a boolean key;
    otherwise the key is taken as a list of column labels, and an empty
    list of labels selects no column. *)
Definition getitem_mask (df : Frame) (key : Mask) : Frame :=
  match df with
  | Rows rows =>
    if is_bool_indexer key then Rows (boolean_index rows (mask_values key))
    else NoColumns
  | NoColumns => NoColumns
  end.

(** [int(mask.sum())] *)
Fixpoint series_sum (mask : list bool) : Z :=
  match mask with
  | [] => 0
  | b :: mask' => (if b then 1 else 0) + series_sum mask'
  end.

(** ** Exceptions and the cleaner's state *)

Inductive exn : Type :=
  | ValueError (message : pystr)
  | KeyError (key : string)
  | ZeroDivisionError
  | OSError.

(** [self.stats]: a dict whose keys are among the seven of the literal in
    [clean_file]; a key that is not set is [None], and [{}] is
    [empty_stats]. *)
Record Stats : Type := mkStats {
  original : option Z;
  removed_non_russian : option Z;
  removed_search : option Z;
  removed_duplicates : option Z;
  removed_empty : option Z;
  final : option Z;
  removed_percentage : option Q
}.

Definition empty_stats : Stats :=
  mkStats None None None None None None None.

(** Truth value of the dict: [False] exactly when it has no key. *)
Definition stats_truthy (s : Stats) : bool :=
  match s with
  | mkStats None None None None None None None => false
  | _ => true
  end.

Record DataCleaner : Type := mkDataCleaner { stats : Stats }.

(** [DataCleaner()] *)
Definition __init__ : DataCleaner := mkDataCleaner empty_stats.

(** Methods run on [self] and either return or raise. *)
Definition M (A : Type) : Type := DataCleaner → DataCleaner * (exn + A).

Definition ret {A} (a : A) : M A := λ self, (self, inr a).
Definition raise {A} (e : exn) : M A := λ self, (self, inl e).
Definition bind {A B} (m : M A) (k : A → M B) : M B :=
  λ self,
    match m self with
    | (self', inl e) => (self', inl e)
    | (self', inr a) => k a self'
    end.

Notation "x <- m ;; k" := (bind m (λ x, k))
  (at level 100, m at next level, right associativity).
Notation "m ;;; k" := (bind m (λ _, k))
  (at level 100, right associativity).

Definition get_stats : M Stats := λ self, (self, inr (stats self)).
Definition set_stats (s : Stats) : M unit := λ _, (mkDataCleaner s, inr tt).
Definition modify_stats (f : Stats → Stats) : M unit :=
  λ self, (mkDataCleaner (f (stats self)), inr tt).

(** [self.stats[key]] *)
Definition getitem {A} (field : Stats → option A) (key : string) : M A :=
  s <- get_stats ;;
  match field s with
  | Some v => ret v
  | None => raise (KeyError key)
  end.

(** [self.stats[key] = v], one definition per key the source assigns. *)
Definition set_removed_non_russian (v : Z) (s : Stats) : Stats :=
  mkStats (original s) (Some v) (removed_search s) (removed_duplicates s)
          (removed_empty s) (final s) (removed_percentage s).
Definition set_removed_search (v : Z) (s : Stats) : Stats :=
  mkStats (original s) (removed_non_russian s) (Some v) (removed_duplicates s)
          (removed_empty s) (final s) (removed_percentage s).
Definition set_removed_duplicates (v : Z) (s : Stats) : Stats :=
  mkStats (original s) (removed_non_russian s) (removed_search s) (Some v)
          (removed_empty s) (final s) (removed_percentage s).
Definition set_removed_empty (v : Z) (s : Stats) : Stats :=
  mkStats (original s) (removed_non_russian s) (removed_search s)
          (removed_duplicates s) (Some v) (final s) (removed_percentage s).
Definition set_final (v : Z) (s : Stats) : Stats :=
  mkStats (original s) (removed_non_russian s) (removed_search s)
          (removed_duplicates s) (removed_empty s) (Some v)
          (removed_percentage s).
Definition set_removed_percentage (v : Q) (s : Stats) : Stats :=
  mkStats (original s) (removed_non_russian s) (removed_search s)
          (removed_duplicates s) (removed_empty s) (final s) (Some v).

(** [a / b] on two [int]s.  The float result is kept as the exact
    rational it rounds. *)
Definition truediv (a b : Z) : M Q :=
  if b =? 0 then raise ZeroDivisionError
  else ret (inject_Z a / inject_Z b)%Q.

(** ** Number formatting for the report *)

(** Nearest integer to [a / d] for [0 < d], ties to even. *)
Definition round_half_even (a d : Z) : Z :=
  let fl := a / d in
  let r := a mod d in
  if 2 * r <? d then fl
  else if d <? 2 * r then fl + 1
  else if Z.even fl then fl else fl + 1.

(** [f"{x:.2f}"], on the exact rational. *)
Definition format_2f (x : Q) : pystr :=
  let n := round_half_even (Qnum x * 100) (Z.pos (Qden x)) in
  let m := Z.abs n in
  (if n <? 0 then py "-" else []) ++
  str_int (m / 100) ++ py "." ++ str_int (m mod 100 / 10) ++ str_int (m mod 10).

(** ** DataCleaner (cleaner.py) *)

Definition _is_russian_domain (domain : pystr) : bool :=
  let domain := lower (strip domain) in
  existsb (λ zone, endswith domain zone) RUSSIAN_ZONES.

Definition _is_search_engine_domain (domain : pystr) : bool :=
  let domain := lower (strip domain) in
  existsb (λ exclusion, contains exclusion domain) SEARCH_ENGINE_DOMAINS.

Definition missing_columns_prefix : pystr :=
  Eval vm_compute in py "Отсутствуют обязательные колонки: ".

Definition _validate_columns (df : DataFrame) : M unit :=
  let missing := filter (λ column, column ∉ columns df) REQUIRED_COLUMNS in
  match missing with
  | [] => ret tt
  | _ :: _ =>
    let message := missing_columns_prefix ++ join (py ", ") missing in
    raise (ValueError message)
  end.

(** [df[REQUIRED_COLUMNS].copy()] *)
Definition cell_at (row : list cell) (i : nat) : cell := default NaN (row !! i).

Definition getitem_required (df : DataFrame) : M Frame :=
  match get_loc (py "Значение") (columns df), get_loc (py "Домен") (columns df),
        get_loc (py "Заголовок") (columns df),
        get_loc (py "META Description") (columns df) with
  | Some iv, Some id, Some it, Some im =>
    ret (Rows (map (λ row, mkRow (cell_at row iv) (cell_at row id)
                                  (cell_at row it) (cell_at row im)) (data df)))
  | _, _, _, _ => raise (KeyError "not in index")
  end.

(** [df[name]] for one of the required columns. *)
Definition getitem_column (df : Frame) (field : Row → cell) (name : string)
  : M (list cell) :=
  match df with
  | Rows rows => ret (map field rows)
  | NoColumns => raise (KeyError name)
  end.

Definition _filter_russian_domains (df : Frame) : M (Frame * Z) :=
  column <- getitem_column df Domain "Домен" ;;
  let mask := map (λ c, strip (lower (astype_str c))) column in
  let is_russian := series_apply _is_russian_domain mask in
  let filtered_df := getitem_mask df is_russian in
  let removed := len (rows_of df) - len (rows_of filtered_df) in
  ret (filtered_df, removed).

Definition _filter_search_engines (df : Frame) : M (Frame * Z) :=
  column <- getitem_column df Domain "Домен" ;;
  let mask := map (λ c, lower (astype_str c)) column in
  let search_mask := series_apply _is_search_engine_domain mask in
  let filtered_df := getitem_mask df (invert search_mask) in
  let removed := series_sum (mask_values search_mask) in
  ret (filtered_df, removed).

(** Keeping the first row of each Domain cell: a row is dropped when its
    Domain cell is equal to the Domain cell of a row already seen. *)
Fixpoint drop_duplicates_from (seen : list cell) (df : Table) : Table :=
  match df with
  | [] => []
  | r :: df' =>
    if bool_decide (Domain r ∈ seen) then drop_duplicates_from seen df'
    else r :: drop_duplicates_from (Domain r :: seen) df'
  end.

Definition keep_first (df : Table) : Table := drop_duplicates_from [] df.

(** [df.drop_duplicates(subset="Домен", keep="first")]; an empty frame is
    returned as it is, before the subset is looked at. *)
Definition drop_duplicates (df : Frame) : Frame :=
  match df with
  | Rows rows => Rows (keep_first rows)
  | NoColumns => NoColumns
  end.

(** The two assignments of the loop over ["Значение", "Домен"]. *)
Definition strip_key_columns (r : Row) : Row :=
  mkRow (Text (strip (astype_str (Value r))))
        (Text (strip (astype_str (Domain r))))
        (Title r) (MetaDescription r).

Definition _drop_empty_values (df : Frame) : M (Frame * Z) :=
  _ <- getitem_column df Value "Значение" ;;
  _ <- getitem_column df Domain "Домен" ;;
  let cleaned_df := map strip_key_columns (rows_of df) in
  let key :=
    bool_mask (map (λ r, bool_decide (Value r ≠ Text []) &&
                         bool_decide (Domain r ≠ Text [])) cleaned_df) in
  let non_empty_df := getitem_mask (Rows cleaned_df) key in
  let removed := len cleaned_df - len (rows_of non_empty_df) in
  ret (non_empty_df, removed).

(** The file system is the environment of [clean_file]: [input] is the
    outcome of [pd.read_excel(input_path)], [writable] tells whether
    [df.to_excel(output_path, index=False)] succeeds.  A run that returns,
    returns the frame it has written. *)
Definition read_excel (input : exn + DataFrame) : M DataFrame :=
  match input with
  | inl exc => raise exc
  | inr df => ret df
  end.

Definition to_excel (writable : bool) (df : Frame) : M unit :=
  if writable then ret tt else raise OSError.

Definition clean_file (input : exn + DataFrame) (writable : bool) : M Frame :=
  df <- read_excel input ;;
  let original_count := len (data df) in
  set_stats (mkStats (Some original_count) (Some 0) (Some 0) (Some 0)
                     (Some 0) (Some 0) (Some 0%Q)) ;;;
  _validate_columns df ;;;
  df <- getitem_required df ;;
  r <- _filter_russian_domains df ;;
  let '(df, removed_non_russian) := r in
  modify_stats (set_removed_non_russian removed_non_russian) ;;;
  r <- _filter_search_engines df ;;
  let '(df, removed_search) := r in
  modify_stats (set_removed_search removed_search) ;;;
  let before_duplicates := len (rows_of df) in
  let df := drop_duplicates df in
  modify_stats (set_removed_duplicates (before_duplicates - len (rows_of df))) ;;;
  r <- _drop_empty_values df ;;
  let '(df, removed_empty) := r in
  modify_stats (set_removed_empty removed_empty) ;;;
  let final_count := len (rows_of df) in
  modify_stats (set_final final_count) ;;;
  let removed_total := original_count - final_count in
  percentage <- (if bool_decide (original_count ≠ 0)
                 then (q <- truediv removed_total original_count ;;
                       ret (q * 100)%Q)
                 else ret 0%Q) ;;
  modify_stats (set_removed_percentage percentage) ;;;
  to_excel writable df ;;;
  ret df.

Definition no_stats_message : pystr :=
  Eval vm_compute in py "Статистика недоступна.".

Definition nl : pystr := [10%N].

Definition get_stats_message : M pystr :=
  s <- get_stats ;;
  if negb (stats_truthy s) then ret no_stats_message
  else
    v_original <- getitem original "original" ;;
    v_final <- getitem final "final" ;;
    v_non_russian <- getitem removed_non_russian "removed_non_russian" ;;
    v_search <- getitem removed_search "removed_search" ;;
    v_duplicates <- getitem removed_duplicates "removed_duplicates" ;;
    v_empty <- getitem removed_empty "removed_empty" ;;
    v_percentage <- getitem removed_percentage "removed_percentage" ;;
    ret (py "📊 Статистика обработки:" ++ nl ++
         py "• Исходное количество записей: " ++ str_int v_original ++ nl ++
         py "• Конечное количество записей: " ++ str_int v_final ++ nl ++
         py "• Удалено не-РФ доменов: " ++ str_int v_non_russian ++ nl ++
         py "• Удалено поисковиков: " ++ str_int v_search ++ nl ++
         py "• Удалено дублей: " ++ str_int v_duplicates ++ nl ++
         py "• Удалено пустых записей: " ++ str_int v_empty ++ nl ++
         py "• Процент удалённых записей: " ++ format_2f v_percentage ++ py "%").

(** ** The tests of the stages, row by row *)

(** The test of the zone stage on one row, as the source composes it. *)
Definition zone_test (r : Row) : bool :=
  _is_russian_domain (strip (lower (astype_str (Domain r)))).

(** The test of the search-engine stage on one row. *)
Definition search_test (r : Row) : bool :=
  _is_search_engine_domain (lower (astype_str (Domain r))).

(** The test of the empty-value stage on one row, before it is stripped. *)
Definition non_empty_test (r : Row) : bool :=
  bool_decide (strip (astype_str (Value r)) ≠ []) &&
  bool_decide (strip (astype_str (Domain r)) ≠ []).

(** The value [clean_file] stores under "removed_percentage", from the two
    counts. *)
Definition percentage (original_count final_count : Z) : Q :=
  if bool_decide (original_count ≠ 0)
  then (inject_Z (original_count - final_count) / inject_Z original_count * 100)%Q
  else 0%Q.

(** ** Sample frames *)

Definition text_row (value domain title description : string) : list cell :=
  [Text (py value); Text (py domain); Text (py title); Text (py description)].

(** The end-to-end example of the specification. *)
Definition example_frame : DataFrame :=
  mkDataFrame REQUIRED_COLUMNS
    [ text_row "x" "shop.ru" "T1" "D1"; text_row "" "shop.ru" "T2" "D2";
      text_row "y" "google.com" "T3" "D3"; text_row "z" "news.su" "T4" "D4" ].

(** The rows the specification expects the example to leave. *)
Definition example_cleaned : Frame :=
  Rows
  [ mkRow (Text (py "x")) (Text (py "shop.ru")) (Text (py "T1")) (Text (py "D1"));
    mkRow (Text (py "z")) (Text (py "news.su")) (Text (py "T4")) (Text (py "D4")) ].

(** A sheet with the header row only. *)
Definition empty_frame : DataFrame := mkDataFrame REQUIRED_COLUMNS [].

(** A sheet without any row of a kept zone. *)
Definition foreign_frame : DataFrame :=
  mkDataFrame REQUIRED_COLUMNS
    [ text_row "x" "example.com" "T1" "D1"; text_row "y" "example.org" "T2" "D2" ].

(** A sheet that has the Domain column and none of the other three. *)
Definition domain_only_frame : DataFrame :=
  mkDataFrame [py "Домен"] [[Text (py "a.ru")]].

(** Two rows whose Domain cells differ by a leading space only. *)
Definition padded_frame : DataFrame :=
  mkDataFrame REQUIRED_COLUMNS
    [ text_row "x" "a.ru" "T1" "D1"; text_row "y" " a.ru" "T2" "D2" ].

(** What the run over [padded_frame] writes. *)
Definition padded_cleaned : Frame :=
  Rows
  [ mkRow (Text (py "x")) (Text (py "a.ru")) (Text (py "T1")) (Text (py "D1"));
    mkRow (Text (py "y")) (Text (py "a.ru")) (Text (py "T2")) (Text (py "D2")) ].

(** A sheet whose first Value is the text "NA" between two spaces. *)
Definition na_frame : DataFrame :=
  mkDataFrame REQUIRED_COLUMNS
    [ text_row " NA " "shop.ru" "T1" "D1"; text_row "z" "news.su" "T4" "D4" ].

(** What the run over [na_frame] writes. *)
Definition na_cleaned : Frame :=
  Rows
  [ mkRow (Text (py "NA")) (Text (py "shop.ru")) (Text (py "T1")) (Text (py "D1"));
    mkRow (Text (py "z")) (Text (py "news.su")) (Text (py "T4")) (Text (py "D4")) ].

(** The sheet of [na_cleaned] as [pd.read_excel] returns it: the text "NA"
    is one of those pandas reads as a missing value. *)
Definition na_reread : DataFrame :=
  mkDataFrame REQUIRED_COLUMNS
    [ [NaN; Text (py "shop.ru"); Text (py "T1"); Text (py "D1")];
      text_row "z" "news.su" "T4" "D4" ].

(** The sheet of [padded_cleaned] as [pd.read_excel] returns it: none of
    its texts is one that pandas reads as a missing value or as a number. *)
Definition padded_reread : DataFrame :=
  mkDataFrame REQUIRED_COLUMNS
    [ text_row "x" "a.ru" "T1" "D1"; text_row "y" "a.ru" "T2" "D2" ].

(** A sheet with one row whose Value cell is empty: [pd.read_excel] returns
    a missing value for it. *)
Definition missing_value_frame : DataFrame :=
  mkDataFrame REQUIRED_COLUMNS
    [ [NaN; Text (py "c.ru"); Text (py "T"); Text (py "D")] ].

(** A sheet with a row whose Value and Domain are padded and a row whose
    Value and META Description cells are empty. *)
Definition padded_and_missing_frame : DataFrame :=
  mkDataFrame REQUIRED_COLUMNS
    [ text_row " x " " a.ru " "T1" "D1";
      [NaN; Text (py "c.ru"); Text (py " T2 "); NaN] ].

(** A row with the given Domain text and fixed other cells. *)
Definition domain_row (domain : string) : Row :=
  mkRow (Text (py "v")) (Text (py domain)) (Text (py "t")) NaN.

(** ** Further definitions *)

(** The dict has all seven keys of the literal in [clean_file]. *)
Definition stats_complete (s : Stats) : bool :=
  match s with
  | mkStats (Some _) (Some _) (Some _) (Some _) (Some _) (Some _) (Some _) => true
  | _ => false
  end.

(** The frame with one more column in front: [df.insert(0, name, cells)]. *)
Definition insert_first (name : pystr) (cells : list cell) (df : DataFrame)
  : DataFrame :=
  mkDataFrame (name :: columns df) (zip_with cons cells (data df)).

(** ** The bot (bot.py, config.py)

    [handle_document] is the caller of the cleaner.  Its effects are kept as
    the list of what it does, in order.  What it cannot decide itself comes
    from the [World]: the identifier drawn by [uuid4], whether the file can
    be fetched, what [pd.read_excel] finds in it, whether the output can be
    written.  Sending a reply is taken to succeed.  Paths are names inside
    [TEMP_DIR]. *)

Definition MAX_FILE_SIZE : Z := 10 * 1024 * 1024.

Definition ALLOWED_EXTENSIONS : list pystr :=
  Eval vm_compute in [py ".xlsx"; py ".xls"].

(** [s.split(sep)] for a one-character separator. *)
Fixpoint str_split (sep : N) (s : pystr) : list pystr :=
  match s with
  | [] => [[]]
  | c :: s' =>
    match str_split sep s' with
    | part :: parts => if (c =? sep)%N then [] :: part :: parts
                       else (c :: part) :: parts
    | [] => [[c]]
    end
  end.

(** [s.rfind(c)]: the position of the last [c], or -1. *)
Fixpoint rfind (c : N) (s : pystr) : Z :=
  match s with
  | [] => -1
  | x :: s' =>
    let i := rfind c s' in
    if 0 <=? i then i + 1 else if (x =? c)%N then 0 else -1
  end.

(** [PurePosixPath(path).name]: the last component that is neither empty
    nor ".", or the empty string. *)
Definition path_name (path : pystr) : pystr :=
  List.last (List.filter (λ part, negb (bool_decide (part = [])) &&
                                  negb (bool_decide (part = [46%N])))
                         (str_split 47 path)) [].

(** [Path(path).suffix] and [Path(path).stem], as pathlib defines them up
    to Python 3.13. *)
Definition path_suffix (path : pystr) : pystr :=
  let name := path_name path in
  let i := rfind 46 name in
  if (0 <? i) && (i <? len name - 1) then drop (Z.to_nat i) name else [].

Definition path_stem (path : pystr) : pystr :=
  let name := path_name path in
  let i := rfind 46 name in
  if (0 <? i) && (i <? len name - 1) then take (Z.to_nat i) name else name.

Record Document : Type := mkDocument {
  file_name : option pystr;
  file_size : option Z
}.

Record Message : Type := mkMessage { document : option Document }.

Record Update : Type := mkUpdate {
  message : option Message;
  effective_user : option Z
}.

Record World : Type := mkWorld {
  uuid_hex : pystr;
  download : exn + unit;
  sheet : exn + DataFrame;
  writable_output : bool
}.

Inductive action : Type :=
  | reply_text (text : pystr)
  | reply_document (filename caption : pystr) (content : Frame)
  | delete_message
  | unlink_if_exists (path : pystr).

Definition too_large_text : pystr :=
  Eval vm_compute in py "❌ Файл слишком большой. Максимальный размер — 10 MB.".
Definition wrong_format_text : pystr :=
  Eval vm_compute in py "❌ Неверный формат файла. Отправьте .xlsx или .xls.".
Definition processing_text : pystr :=
  Eval vm_compute in py "⏳ Обрабатываю файл...".
Definition error_prefix : pystr := Eval vm_compute in py "❌ Ошибка: ".
Definition unexpected_text : pystr :=
  Eval vm_compute in
  py "❌ Произошла непредвиденная ошибка при обработке файла. Попробуйте позже.".
Definition done_caption : pystr :=
  Eval vm_compute in py "Готово! Вот очищенный файл.".

(** The two [except] clauses. *)
Definition on_exception (exc : exn) : list action :=
  match exc with
  | ValueError message => [reply_text (error_prefix ++ message)]
  | _ => [reply_text unexpected_text]
  end.

(** The body of the [try]. *)
Definition process (cleaned_file_name : pystr) (world : World) : list action :=
  match download world with
  | inl exc => on_exception exc
  | inr _ =>
    let '(data_cleaner, result) :=
      clean_file (sheet world) (writable_output world) __init__ in
    match result with
    | inl exc => on_exception exc
    | inr df =>
      match get_stats_message data_cleaner with
      | (_, inl exc) => on_exception exc
      | (_, inr stats_message) =>
        [ reply_text stats_message;
          reply_document cleaned_file_name done_caption df ]
      end
    end
  end.

Definition handle_document (update : Update) (world : World) : list action :=
  match message update with
  | None => []
  | Some msg =>
    match document msg with
    | None => []
    | Some doc =>
      let name :=
        match file_name doc with
        | Some (c :: s) => c :: s
        | _ => py "file.xlsx"
        end in
      let file_extension := lower (path_suffix name) in
      if match file_size doc with
         | Some size => bool_decide (size ≠ 0) && (MAX_FILE_SIZE <? size)
         | None => false
         end
      then [reply_text too_large_text]
      else if negb (bool_decide (file_extension ∈ ALLOWED_EXTENSIONS))
      then [reply_text wrong_format_text]
      else
        let user_id :=
          match effective_user update with
          | Some id => str_int id
          | None => py "anonymous"
          end in
        let temp_input_path :=
          user_id ++ py "_" ++ uuid_hex world ++ file_extension in
        let cleaned_file_name := py "cleaned_" ++ path_stem name ++ py ".xlsx" in
        let temp_output_path := cleaned_file_name in
        reply_text processing_text ::
        process cleaned_file_name world ++
        [ delete_message; unlink_if_exists temp_input_path;
          unlink_if_exists temp_output_path ]
    end
  end.

(** An update that carries a document of the given name and size. *)
Definition document_update (name : string) (size : Z) : Update :=
  mkUpdate (Some (mkMessage (Some (mkDocument (Some (py name)) (Some size)))))
           (Some 42).

(** A world in which the file is fetched and holds the given sheet. *)
Definition world_with (df : DataFrame) : World :=
  mkWorld (py "0f") (inr tt) (inr df) true.
(** * Lemmas *)

(** ** Strings *)

Section strings.
Implicit Types s p sub : pystr.

Lemma startswith_spec s p : startswith s p = true ↔ ∃ q, s = p ++ q.
Proof.
  revert s. induction p as [|a p IH]; intros s; simpl.
  - split; [intros _; by exists s | auto].
  - destruct s as [|b s].
    + split; [done | intros [q Hq]; discriminate].
    + rewrite andb_true_iff, N.eqb_eq, IH. split.
      * intros [-> [q ->]]. by exists q.
      * intros [q Hq]. injection Hq as -> ->. eauto.
Qed.

Lemma endswith_spec s p : endswith s p = true ↔ ∃ q, s = q ++ p.
Proof.
  unfold endswith. rewrite startswith_spec. split.
  - intros [q Hq]. exists (rev q).
    rewrite <- (rev_involutive s), Hq, rev_app_distr.
    by rewrite rev_involutive.
  - intros [q ->]. exists (rev q). by rewrite rev_app_distr.
Qed.

Lemma contains_spec sub s :
  contains sub s = true ↔ ∃ a b, s = a ++ sub ++ b.
Proof.
  induction s as [|c s IH]; simpl.
  - rewrite orb_false_r, startswith_spec. split.
    + intros [q Hq]. by exists [], q.
    + intros (a & b & Hab). destruct a; [|discriminate]. by exists b.
  - rewrite orb_true_iff, startswith_spec, IH. split.
    + intros [[q Hq] | (a & b & ->)].
      * by exists [], q.
      * by exists (c :: a), b.
    + intros ([|c' a] & b & Hab).
      * left. eauto.
      * right. injection Hab as -> ->. eauto.
Qed.

Lemma is_space_iff c :
  is_space c = true ↔
  (9 ≤ c ≤ 13 ∨ 28 ≤ c ≤ 32 ∨ c = 133 ∨ c = 160 ∨ c = 5760 ∨
   8192 ≤ c ≤ 8202 ∨ c = 8232 ∨ c = 8233 ∨ c = 8239 ∨ c = 8287 ∨
   c = 12288)%N.
Proof.
  unfold is_space.
  rewrite !orb_true_iff, !andb_true_iff, !N.leb_le, !N.eqb_eq. tauto.
Qed.

Lemma lower_cp_cases c :
  (lower_cp c = c ∨
   (65 ≤ lower_cp c - 32 ≤ 90 ∨ 192 ≤ lower_cp c - 32 ≤ 222 ∨
    1024 ≤ lower_cp c - 80 ≤ 1039 ∨ 1040 ≤ lower_cp c - 32 ≤ 1071) ∧
   (65 ≤ c ≤ 90 ∨ 192 ≤ c ≤ 222 ∨ 1024 ≤ c ≤ 1071))%N.
Proof.
  unfold lower_cp.
  destruct (N.leb_spec 65 c), (N.leb_spec c 90); simpl; try lia;
  destruct (N.leb_spec 192 c), (N.leb_spec c 222); simpl; try lia;
  destruct (N.eqb_spec c 215); simpl; try lia;
  destruct (N.leb_spec 1024 c), (N.leb_spec c 1039); simpl; try lia;
  destruct (N.leb_spec 1040 c), (N.leb_spec c 1071); simpl; lia.
Qed.

Lemma is_space_lower_cp c : is_space (lower_cp c) = is_space c.
Proof.
  apply eq_true_iff_eq. rewrite !is_space_iff.
  destruct (lower_cp_cases c) as [E | H]; [by rewrite E | lia].
Qed.

Lemma lower_cp_idemp c : lower_cp (lower_cp c) = lower_cp c.
Proof.
  destruct (lower_cp_cases c) as [E | H]; [by rewrite !E |].
  generalize dependent (lower_cp c). intros d Hd. unfold lower_cp.
  destruct (N.leb_spec 65 d), (N.leb_spec d 90); simpl; try lia;
  destruct (N.leb_spec 192 d), (N.leb_spec d 222); simpl; try lia;
  destruct (N.eqb_spec d 215); simpl; try lia;
  destruct (N.leb_spec 1024 d), (N.leb_spec d 1039); simpl; try lia;
  destruct (N.leb_spec 1040 d), (N.leb_spec d 1071); simpl; lia.
Qed.

Lemma lower_idemp s : lower (lower s) = lower s.
Proof.
  unfold lower. rewrite map_map. apply map_ext. intros. apply lower_cp_idemp.
Qed.

Lemma lstrip_lower s : lstrip (lower s) = lower (lstrip s).
Proof.
  induction s as [|c s IH]; simpl; [done |].
  rewrite is_space_lower_cp. by destruct (is_space c).
Qed.

Lemma rev_lower s : rev (lower s) = lower (rev s).
Proof. unfold lower. symmetry. apply map_rev. Qed.

Lemma strip_lower s : strip (lower s) = lower (strip s).
Proof.
  unfold strip, rstrip.
  by rewrite lstrip_lower, rev_lower, lstrip_lower, rev_lower.
Qed.


Lemma lstrip_head s : head_not_space (lstrip s).
Proof.
  induction s as [|c s IH]; simpl; [done |].
  by destruct (is_space c) eqn:E.
Qed.

Lemma lstrip_fixed s : head_not_space s → lstrip s = s.
Proof. destruct s as [|c s]; simpl; [done |]. by intros ->. Qed.

Lemma lstrip_split s :
  ∃ ws, s = ws ++ lstrip s ∧ Forall (λ c, is_space c = true) ws.
Proof.
  induction s as [|c s (ws & IH & Hws)]; simpl.
  - by exists [].
  - destruct (is_space c) eqn:E.
    + exists (c :: ws). split; [simpl; congruence | by constructor].
    + by exists [].
Qed.

Lemma rstrip_split s :
  ∃ ws, s = rstrip s ++ ws ∧ Forall (λ c, is_space c = true) ws.
Proof.
  unfold rstrip. destruct (lstrip_split (rev s)) as (ws & Hs & Hws).
  exists (rev ws). split.
  - rewrite <- rev_app_distr, <- Hs. by rewrite rev_involutive.
  - by apply Forall_rev.
Qed.

Lemma rstrip_head s : head_not_space s → head_not_space (rstrip s).
Proof.
  destruct (rstrip_split s) as (ws & Hs & _).
  destruct (rstrip s) as [|c t]; [done |].
  rewrite Hs. done.
Qed.

Lemma rstrip_fixed s : head_not_space (rev s) → rstrip s = s.
Proof.
  intros H. unfold rstrip. rewrite lstrip_fixed by done. apply rev_involutive.
Qed.

Lemma rstrip_last s : head_not_space (rev (rstrip s)).
Proof. unfold rstrip. rewrite rev_involutive. apply lstrip_head. Qed.

Lemma strip_fixed s :
  head_not_space s → head_not_space (rev s) → strip s = s.
Proof.
  intros H1 H2. unfold strip. rewrite lstrip_fixed by done.
  by apply rstrip_fixed.
Qed.

Lemma strip_idemp s : strip (strip s) = strip s.
Proof.
  apply strip_fixed; unfold strip.
  - apply rstrip_head, lstrip_head.
  - apply rstrip_last.
Qed.


Lemma contains_lstrip c sub s :
  is_space c = false →
  contains (c :: sub) (lstrip s) = contains (c :: sub) s.
Proof.
  intros Hc. induction s as [|d s IH]; [done |].
  cbn [lstrip]. destruct (is_space d) eqn:Hd; [|done].
  rewrite IH. cbn [contains startswith].
  destruct (N.eqb_spec c d) as [-> | _]; [congruence | done].
Qed.

Lemma contains_rev sub s : contains (rev sub) (rev s) = contains sub s.
Proof.
  apply eq_true_iff_eq. rewrite !contains_spec. split.
  - intros (a & b & H). exists (rev b), (rev a).
    rewrite <- (rev_involutive s), H, !rev_app_distr, rev_involutive.
    by rewrite <- app_assoc.
  - intros (a & b & ->). exists (rev b), (rev a).
    by rewrite !rev_app_distr, <- app_assoc.
Qed.

Lemma contains_strip sub s :
  is_word sub = true → contains sub (strip s) = contains sub s.
Proof.
  unfold is_word. intros Hw.
  destruct sub as [|a sub'] eqn:Esub; [done |].
  destruct (rev (a :: sub')) as [|b bus] eqn:Erev; [done |].
  apply andb_true_iff in Hw as [Ha Hb].
  apply negb_true_iff in Ha, Hb.
  unfold strip, rstrip.
  rewrite <- (contains_rev _ (rev _)), rev_involutive, Erev.
  rewrite contains_lstrip by done.
  rewrite <- Erev, contains_rev. by apply contains_lstrip.
Qed.
End strings.

(** ** Masks and counts *)

Section masks.
Context {A : Type}.
Implicit Types (l : list A) (f : A → bool) (mask : list bool).

Lemma boolean_index_map f l : boolean_index l (map f l) = List.filter f l.
Proof.
  induction l as [|x l IH]; simpl; [done |]. rewrite IH. by destruct (f x).
Qed.

Lemma boolean_index_sublist l mask : boolean_index l mask `sublist_of` l.
Proof.
  revert mask. induction l as [|x l IH]; intros [|[] mask]; simpl;
    auto using sublist_nil_l, sublist_skip, sublist_cons.
Qed.

Lemma sublist_filter_bool f l : List.filter f l `sublist_of` l.
Proof. rewrite <- boolean_index_map. apply boolean_index_sublist. Qed.

Lemma series_sum_map f l : series_sum (map f l) = len (List.filter f l).
Proof.
  unfold len. induction l as [|x l IH]; simpl; [done |].
  rewrite IH. destruct (f x); simpl length; lia.
Qed.

Lemma len_filter_split f l :
  len (List.filter f l) + len (List.filter (λ x, negb (f x)) l) = len l.
Proof. unfold len. rewrite <- (filter_length f l). lia. Qed.

Lemma elem_of_List_filter f l x : x ∈ List.filter f l ↔ x ∈ l ∧ f x = true.
Proof. rewrite !list_elem_of_In. apply filter_In. Qed.

Lemma List_filter_all f l :
  (∀ x, x ∈ l → f x = true) → List.filter f l = l.
Proof.
  induction l as [|x l IH]; intros H; simpl; [done |].
  rewrite (H x) by constructor.
  f_equal. apply IH. intros y Hy. apply H. by constructor.
Qed.

Lemma len_filter_none f l :
  (∀ x, x ∈ l → f x = false) → len (List.filter f l) = 0.
Proof.
  intros H. pose proof (len_filter_split f l) as Hs.
  rewrite (List_filter_all (λ x, negb (f x))) in Hs; [lia |].
  intros x Hx. by rewrite H.
Qed.

Lemma series_apply_map (func : pystr → bool) (g : A → pystr) l :
  series_apply func (map g l) =
  match l with
  | [] => mkMask object_dtype []
  | _ :: _ => mkMask bool_dtype (map (λ x, func (g x)) l)
  end.
Proof. destruct l; simpl; [done |]. by rewrite map_map. Qed.
End masks.

(** ** The stages as filters

    Over a frame that has its columns each stage is a filter by the test of
    the stage.  The zone and search-engine stages build their mask with
    [Series.apply], so over a frame without rows they return [NoColumns]. *)

Lemma _filter_russian_domains_eq t :
  _filter_russian_domains (Rows t) =
  ret (match t with
       | [] => NoColumns
       | _ :: _ => Rows (List.filter zone_test t)
       end,
       len t - len (List.filter zone_test t)).
Proof.
  destruct t as [|r t]; [done |].
  unfold _filter_russian_domains, getitem_column, bind, ret.
  rewrite !map_map, (series_apply_map _is_russian_domain). cbn [getitem_mask
    is_bool_indexer mask_dtype mask_values rows_of].
  by rewrite (boolean_index_map zone_test).
Qed.

Lemma _filter_search_engines_eq t :
  _filter_search_engines (Rows t) =
  ret (match t with
       | [] => NoColumns
       | _ :: _ => Rows (List.filter (λ r, negb (search_test r)) t)
       end,
       len (List.filter search_test t)).
Proof.
  destruct t as [|r t]; [done |].
  unfold _filter_search_engines, getitem_column, bind, ret.
  rewrite !map_map, (series_apply_map _is_search_engine_domain).
  cbn [getitem_mask invert is_bool_indexer mask_dtype mask_values rows_of].
  rewrite map_map, (boolean_index_map (λ r, negb (search_test r))).
  by rewrite (series_sum_map search_test).
Qed.

Lemma _drop_empty_values_eq t :
  _drop_empty_values (Rows t) =
  ret (Rows (map strip_key_columns (List.filter non_empty_test t)),
       len t - len (List.filter non_empty_test t)).
Proof.
  unfold _drop_empty_values, getitem_column, bind, ret.
  cbn [getitem_mask bool_mask is_bool_indexer mask_dtype mask_values rows_of].
  rewrite (boolean_index_map
    (λ r, bool_decide (Value r ≠ Text []) && bool_decide (Domain r ≠ Text []))).
  assert (Hmap : ∀ l,
    List.filter (λ r, bool_decide (Value r ≠ Text []) &&
                      bool_decide (Domain r ≠ Text []))
                (map strip_key_columns l)
    = map strip_key_columns (List.filter non_empty_test l)).
  { induction l as [|r l IH]; simpl; [done |]. rewrite IH.
    unfold non_empty_test.
    assert (E : ∀ s : pystr,
      bool_decide (Text s ≠ Text []) = bool_decide (s ≠ [])).
    { intros s. apply bool_decide_ext. split; intros H1 H2; apply H1; congruence. }
    rewrite !E. by destruct (_ && _). }
  rewrite Hmap. unfold len. by rewrite !length_map.
Qed.

Lemma _filter_russian_domains_NoColumns :
  _filter_russian_domains NoColumns = raise (KeyError "Домен").
Proof. done. Qed.

Lemma _filter_search_engines_NoColumns :
  _filter_search_engines NoColumns = raise (KeyError "Домен").
Proof. done. Qed.

Lemma _drop_empty_values_NoColumns :
  _drop_empty_values NoColumns = raise (KeyError "Значение").
Proof. done. Qed.

(** ** Runs of [clean_file] *)

Lemma get_loc_Some name cols :
  name ∈ cols → ∃ i, get_loc name cols = Some i.
Proof.
  induction cols as [|c cols IH]; intros H; [by apply not_elem_of_nil in H |].
  simpl. case_decide; [eauto |].
  apply elem_of_cons in H as [-> | H]; [done |].
  destruct (IH H) as [i ->]. eauto.
Qed.

Lemma missing_nil df :
  filter (λ column, column ∉ columns df) REQUIRED_COLUMNS = [] ↔
  REQUIRED_COLUMNS ⊆ columns df.
Proof.
  split.
  - intros H c Hc. destruct (decide (c ∈ columns df)) as [|Hn]; [done |].
    assert (Hin : c ∈ filter (λ column, column ∉ columns df) REQUIRED_COLUMNS)
      by by apply list_elem_of_filter.
    rewrite H in Hin. by apply not_elem_of_nil in Hin.
  - intros H. destruct (filter _ REQUIRED_COLUMNS) as [|c l] eqn:E; [done |].
    assert (Hin : c ∈ filter (λ column, column ∉ columns df) REQUIRED_COLUMNS)
      by (rewrite E; constructor).
    apply list_elem_of_filter in Hin as [Hn Hc]. destruct Hn. by apply H.
Qed.

Lemma _validate_columns_ok df self :
  REQUIRED_COLUMNS ⊆ columns df → _validate_columns df self = (self, inr tt).
Proof. intros H. unfold _validate_columns. by rewrite (proj2 (missing_nil df) H). Qed.

Lemma _validate_columns_raises df self :
  ¬ REQUIRED_COLUMNS ⊆ columns df →
  _validate_columns df self =
  (self, inl (ValueError (missing_columns_prefix ++
     join (py ", ") (filter (λ column, column ∉ columns df) REQUIRED_COLUMNS)))).
Proof.
  intros H. unfold _validate_columns.
  destruct (filter _ REQUIRED_COLUMNS) eqn:E; [|done].
  by apply missing_nil in E.
Qed.

Lemma getitem_required_ok df :
  REQUIRED_COLUMNS ⊆ columns df →
  ∃ t0, getitem_required df = ret (Rows t0) ∧ len t0 = len (data df).
Proof.
  intros H. unfold getitem_required.
  destruct (get_loc_Some (py "Значение") (columns df)) as [iv ->];
    [apply H, list_elem_of_In; vm_compute; auto 6 |].
  destruct (get_loc_Some (py "Домен") (columns df)) as [id ->];
    [apply H, list_elem_of_In; vm_compute; auto 6 |].
  destruct (get_loc_Some (py "Заголовок") (columns df)) as [it ->];
    [apply H, list_elem_of_In; vm_compute; auto 6 |].
  destruct (get_loc_Some (py "META Description") (columns df)) as [im ->];
    [apply H, list_elem_of_In; vm_compute; auto 6 |].
  eexists. split; [reflexivity |]. unfold len. by rewrite length_map.
Qed.

Lemma required_columns_dec df :
  {REQUIRED_COLUMNS ⊆ columns df} + {¬ REQUIRED_COLUMNS ⊆ columns df}.
Proof.
  destruct (decide (filter (λ column, column ∉ columns df) REQUIRED_COLUMNS = []))
    as [E | E]; [left | right]; by rewrite <- missing_nil.
Qed.

Lemma nonempty_match {A} (l : list A) (x : Frame) :
  l ≠ [] → match l with [] => NoColumns | _ :: _ => x end = x.
Proof. by destruct l. Qed.

(** A run over a frame with the required columns, of which [t0] is the
    projection, when some row passes the zone test: [t4] is the table after
    the four stages. *)
Lemma clean_file_valid df writable self t0 :
  REQUIRED_COLUMNS ⊆ columns df →
  getitem_required df = ret (Rows t0) →
  List.filter zone_test t0 ≠ [] →
  let t1 := List.filter zone_test t0 in
  let t2 := List.filter (λ r, negb (search_test r)) t1 in
  let t3 := keep_first t2 in
  let t4 := map strip_key_columns (List.filter non_empty_test t3) in
  clean_file (inr df) writable self =
  (mkDataCleaner
     (mkStats (Some (len (data df)))
              (Some (len t0 - len t1))
              (Some (len (List.filter search_test t1)))
              (Some (len t2 - len t3))
              (Some (len t3 - len (List.filter non_empty_test t3)))
              (Some (len t4))
              (Some (percentage (len (data df)) (len t4)))),
   if writable then inr (Rows t4) else inl OSError).
Proof.
  intros Hcols Hget Hne t1 t2 t3 t4.
  assert (H0 : t0 ≠ []) by (intros ->; by apply Hne).
  unfold clean_file, bind, read_excel, ret at 1, set_stats.
  rewrite _validate_columns_ok by done. rewrite Hget. unfold ret at 1.
  rewrite _filter_russian_domains_eq. unfold ret at 1.
  rewrite (nonempty_match t0) by done. fold t1.
  rewrite _filter_search_engines_eq. unfold ret at 1.
  rewrite (nonempty_match t1) by done. fold t2.
  cbn [drop_duplicates rows_of]. fold t3.
  rewrite _drop_empty_values_eq. unfold ret at 1. cbn [rows_of]. fold t4.
  unfold modify_stats, set_removed_non_russian, set_removed_search,
    set_removed_duplicates, set_removed_empty, set_final,
    set_removed_percentage.
  cbn [stats original removed_non_russian removed_search removed_duplicates
       removed_empty final removed_percentage].
  replace (len (map strip_key_columns (List.filter non_empty_test t3)))
    with (len t4) by done.
  unfold percentage, truediv.
  case_bool_decide as Hn.
  - destruct (Z.eqb_spec (len (data df)) 0) as [|_]; [done |].
    unfold ret, to_excel. by destruct writable.
  - unfold ret, to_excel. by destruct writable.
Qed.

(** A run in which no row passes the zone test: the frame loses its columns
    at the first mask built over no row, and the stage after it raises. *)
Lemma clean_file_no_zone_rows df writable self t0 :
  REQUIRED_COLUMNS ⊆ columns df →
  getitem_required df = ret (Rows t0) →
  List.filter zone_test t0 = [] →
  clean_file (inr df) writable self =
  match t0 with
  | [] =>
    (mkDataCleaner (mkStats (Some (len (data df))) (Some 0) (Some 0) (Some 0)
                            (Some 0) (Some 0) (Some 0%Q)),
     inl (KeyError "Домен"))
  | _ :: _ =>
    (mkDataCleaner (mkStats (Some (len (data df))) (Some (len t0)) (Some 0)
                            (Some 0) (Some 0) (Some 0) (Some 0%Q)),
     inl (KeyError "Значение"))
  end.
Proof.
  intros Hcols Hget Hnone.
  unfold clean_file, bind, read_excel, ret at 1, set_stats.
  rewrite _validate_columns_ok by done. rewrite Hget. unfold ret at 1.
  rewrite _filter_russian_domains_eq. unfold ret at 1. rewrite Hnone.
  destruct t0 as [|r0 t0']; [done |].
  rewrite _filter_search_engines_eq. unfold ret at 1.
  unfold modify_stats. cbn [stats drop_duplicates rows_of List.filter].
  rewrite _drop_empty_values_NoColumns.
  unfold set_removed_non_russian, set_removed_search, set_removed_duplicates.
  cbn. by rewrite Z.sub_0_r.
Qed.

Lemma clean_file_invalid df writable self :
  ¬ REQUIRED_COLUMNS ⊆ columns df →
  clean_file (inr df) writable self =
  (mkDataCleaner
     (mkStats (Some (len (data df))) (Some 0) (Some 0) (Some 0) (Some 0)
              (Some 0) (Some 0%Q)),
   inl (ValueError (missing_columns_prefix ++
     join (py ", ") (filter (λ column, column ∉ columns df) REQUIRED_COLUMNS)))).
Proof.
  intros H. unfold clean_file, bind, read_excel, ret at 1, set_stats.
  by rewrite _validate_columns_raises.
Qed.

Lemma clean_file_unreadable exc writable self :
  clean_file (inl exc) writable self = (self, inl exc).
Proof. done. Qed.

(** The runs that return. *)
Lemma clean_file_returns df writable self self' out :
  clean_file (inr df) writable self = (self', inr out) →
  ∃ t0, REQUIRED_COLUMNS ⊆ columns df ∧ writable = true ∧
        getitem_required df = ret (Rows t0) ∧ len t0 = len (data df) ∧
        List.filter zone_test t0 ≠ [].
Proof.
  intros H. destruct (required_columns_dec df) as [Hc | Hc].
  - destruct (getitem_required_ok df Hc) as (t0 & Hget & Hlen).
    exists t0. destruct (decide (List.filter zone_test t0 = [])) as [E | E].
    + rewrite (clean_file_no_zone_rows _ _ _ _ Hc Hget E) in H.
      by destruct t0.
    + rewrite (clean_file_valid _ _ _ _ Hc Hget E) in H.
      by destruct writable.
  - by rewrite clean_file_invalid in H.
Qed.

(** * The properties of the specification *)

(** The end-to-end example of the specification: "google.com" goes at the
    zone stage, the second "shop.ru" at deduplication, two rows are left. *)
Example end_to_end_example :
  clean_file (inr example_frame) true __init__ =
  (mkDataCleaner (mkStats (Some 4) (Some 1) (Some 0) (Some 1) (Some 0)
                          (Some 2) (Some (200 # 4))),
   inr example_cleaned).
Proof. reflexivity. Qed.

(** ** Statistics *)

(** C1: after a run that returns, the final count plus the four removal
    counters is the original count.  The counters are those of the stages in
    the order zone filter, search-engine filter, deduplication, empty-value
    drop, each stage working on the frame the stage before it has left. *)
Theorem accounting_identity df writable self self' out :
  clean_file (inr df) writable self = (self', inr out) →
  ∃ df0 df1 df2 n_zone n_search n_duplicate n_empty,
    getitem_required df = ret df0 ∧
    _filter_russian_domains df0 = ret (df1, n_zone) ∧
    _filter_search_engines df1 = ret (df2, n_search) ∧
    n_duplicate = len (rows_of df2) - len (rows_of (drop_duplicates df2)) ∧
    _drop_empty_values (drop_duplicates df2) = ret (out, n_empty) ∧
    original (stats self') = Some (len (data df)) ∧
    removed_non_russian (stats self') = Some n_zone ∧
    removed_search (stats self') = Some n_search ∧
    removed_duplicates (stats self') = Some n_duplicate ∧
    removed_empty (stats self') = Some n_empty ∧
    final (stats self') = Some (len (rows_of out)) ∧
    len (rows_of out) + n_zone + n_search + n_duplicate + n_empty
      = len (data df).
Proof.
  intros Hrun.
  destruct (clean_file_returns _ _ _ _ _ Hrun)
    as (t0 & Hc & -> & Hget & Hlen & Hne).
  assert (H0 : t0 ≠ []) by (intros ->; by apply Hne).
  rewrite (clean_file_valid _ _ _ _ Hc Hget Hne) in Hrun.
  injection Hrun as <- <-.
  set (t1 := List.filter zone_test t0) in *.
  set (t2 := List.filter (λ r, negb (search_test r)) t1).
  set (t3 := keep_first t2).
  exists (Rows t0), (Rows t1), (Rows t2). eexists _, _, _, _.
  split; [exact Hget |].
  split; [by rewrite _filter_russian_domains_eq, nonempty_match |].
  split; [by rewrite _filter_search_engines_eq, nonempty_match |].
  split; [reflexivity |].
  split; [apply _drop_empty_values_eq |].
  cbn [stats original removed_non_russian removed_search
       removed_duplicates removed_empty final rows_of drop_duplicates].
  repeat (split; [reflexivity |]).
  pose proof (len_filter_split search_test t1) as Hs. fold t2 in Hs.
  fold t3.
  assert (len (map strip_key_columns (List.filter non_empty_test t3))
          = len (List.filter non_empty_test t3)) as ->
    by (unfold len; by rewrite length_map).
  change (List.filter zone_test t0) with t1. lia.
Qed.

Lemma accounting_identity_witness :
  ∃ n_zone n_search n_duplicate n_empty,
    (clean_file (inr example_frame) true __init__).1 =
    mkDataCleaner (mkStats (Some 4) (Some n_zone) (Some n_search)
      (Some n_duplicate) (Some n_empty) (Some 2) (Some (200 # 4))) ∧
    2 + n_zone + n_search + n_duplicate + n_empty = 4.
Proof.
  destruct (accounting_identity example_frame true __init__
              (clean_file (inr example_frame) true __init__).1 example_cleaned
              eq_refl)
    as (df0 & df1 & df2 & n_zone & n_search & n_duplicate & n_empty & H).
  destruct H as (_ & _ & _ & _ & _ & _ & Hz & Hs & Hd & He & _ & Hsum).
  exists n_zone, n_search, n_duplicate, n_empty. split; [| exact Hsum].
  vm_compute in Hz, Hs, Hd, He.
  injection Hz as <-. injection Hs as <-. injection Hd as <-.
  injection He as <-. reflexivity.
Defined.

(** The percentage of a run that returns.  Such a run has read at least one
    row, so the quotient is taken. *)
Lemma removed_percentage_of_returning_run df writable self self' out :
  clean_file (inr df) writable self = (self', inr out) →
  len (data df) ≠ 0 ∧
  ∃ p, removed_percentage (stats self') = Some p ∧
       (p == inject_Z (len (data df) - len (rows_of out))
             / inject_Z (len (data df)) * 100)%Q.
Proof.
  intros Hrun.
  destruct (clean_file_returns _ _ _ _ _ Hrun)
    as (t0 & Hc & -> & Hget & Hlen & Hne).
  assert (Hn : len (data df) ≠ 0).
  { rewrite <- Hlen. destruct t0; [by destruct Hne | unfold len; simpl; lia]. }
  split; [done |].
  rewrite (clean_file_valid _ _ _ _ Hc Hget Hne) in Hrun.
  injection Hrun as <- <-. eexists. split; [reflexivity |].
  unfold percentage. by rewrite bool_decide_eq_true_2.
Qed.

Lemma clean_file_never_divides_by_zero df writable self :
  (clean_file (inr df) writable self).2 ≠ inl ZeroDivisionError.
Proof.
  destruct (required_columns_dec df) as [Hc | Hc].
  - destruct (getitem_required_ok df Hc) as (t0 & Hget & Hlen).
    destruct (decide (List.filter zone_test t0 = [])) as [E | E].
    + rewrite (clean_file_no_zone_rows _ _ _ _ Hc Hget E). by destruct t0.
    + rewrite (clean_file_valid _ _ _ _ Hc Hget E). by destruct writable.
  - by rewrite clean_file_invalid.
Qed.

(** A run over a sheet that has the required columns and no row. *)
Lemma header_only_sheet_raises df writable self :
  REQUIRED_COLUMNS ⊆ columns df → data df = [] →
  clean_file (inr df) writable self =
  (mkDataCleaner (mkStats (Some 0) (Some 0) (Some 0) (Some 0) (Some 0)
                          (Some 0) (Some 0%Q)),
   inl (KeyError "Домен")).
Proof.
  intros Hc Hd. destruct (getitem_required_ok df Hc) as (t0 & Hget & Hlen).
  rewrite Hd in Hlen. destruct t0 as [|r t0]; [| discriminate Hlen].
  rewrite (clean_file_no_zone_rows _ _ _ _ Hc Hget eq_refl). by rewrite Hd.
Qed.

(** A run over a sheet in which no row is of a kept zone: the zone stage
    leaves a frame with columns and no row, the search-engine stage builds
    its mask over no row and returns a frame without columns, and the
    empty-value stage raises. *)
Example foreign_sheet_raises :
  clean_file (inr foreign_frame) true __init__ =
  (mkDataCleaner (mkStats (Some 2) (Some 2) (Some 0) (Some 0) (Some 0)
                          (Some 0) (Some 0%Q)),
   inl (KeyError "Значение")).
Proof. reflexivity. Qed.

(** C9: a run over a sheet with the header row and no other row does not
    reach the computation of the percentage.  The mask of the zone stage is
    built over no row, so the stage returns a frame without columns, and the
    search-engine stage raises [KeyError] when it looks up the Domain column;
    the statistics stay as they were initialised. *)
Theorem zero_row_run_raises :
  clean_file (inr empty_frame) true __init__ =
  (mkDataCleaner (mkStats (Some 0) (Some 0) (Some 0) (Some 0) (Some 0)
                          (Some 0) (Some 0%Q)),
   inl (KeyError "Домен")).
Proof. reflexivity. Qed.

(** ** Failures *)

Lemma contains_app_r sub a s :
  contains sub s = true → contains sub (a ++ s) = true.
Proof.
  rewrite !contains_spec. intros (x & y & ->). exists (a ++ x), y.
  by rewrite <- app_assoc.
Qed.

Lemma contains_join sep parts p :
  p ∈ parts → contains p (join sep parts) = true.
Proof.
  induction parts as [|q parts IH]; intros H; [by apply not_elem_of_nil in H |].
  apply elem_of_cons in H as [-> | H].
  - apply contains_spec. destruct parts as [|q' parts]; simpl.
    + exists [], []. by rewrite app_nil_r.
    + by exists [], (sep ++ join sep (q' :: parts)).
  - destruct parts as [|q' parts]; [by apply not_elem_of_nil in H |].
    change (join sep (q :: q' :: parts))
      with (q ++ sep ++ join sep (q' :: parts)).
    by apply contains_app_r, contains_app_r, IH.
Qed.

(** C3: when a required column is absent the run raises [ValueError] (the
    schema error), and the message lists every absent required column: it
    is the fixed prefix followed by the absent names, in the order of
    [REQUIRED_COLUMNS], joined by ", ". *)
Theorem missing_columns_all_reported df writable self :
  (∃ column, column ∈ REQUIRED_COLUMNS ∧ column ∉ columns df) →
  ∃ missing message,
    (clean_file (inr df) writable self).2 = inl (ValueError message) ∧
    message = missing_columns_prefix ++ join (py ", ") missing ∧
    (∀ column, column ∈ missing ↔
               column ∈ REQUIRED_COLUMNS ∧ column ∉ columns df) ∧
    missing `sublist_of` REQUIRED_COLUMNS ∧
    (∀ column, column ∈ REQUIRED_COLUMNS → column ∉ columns df →
               contains column message = true).
Proof.
  intros (c & Hc & Hn).
  assert (Hsub : ¬ REQUIRED_COLUMNS ⊆ columns df) by (intros H; by apply Hn, H).
  exists (filter (λ column, column ∉ columns df) REQUIRED_COLUMNS). eexists.
  rewrite clean_file_invalid by done. split; [reflexivity |].
  split; [reflexivity |]. split; [| split].
  - intros column. rewrite list_elem_of_filter. tauto.
  - apply sublist_filter.
  - intros column H1 H2. apply contains_app_r, contains_join.
    by apply list_elem_of_filter.
Qed.

Lemma missing_columns_all_reported_witness :
  ∃ message,
    (clean_file (inr domain_only_frame) true __init__).2
      = inl (ValueError message) ∧
    contains (py "Значение") message = true ∧
    contains (py "Заголовок") message = true ∧
    contains (py "META Description") message = true.
Proof.
  destruct (missing_columns_all_reported domain_only_frame true __init__)
    as (missing & message & Hrun & _ & _ & _ & Hall).
  - exists (py "Значение"). split.
    + apply list_elem_of_In. vm_compute. auto.
    + intros H. apply list_elem_of_In in H. vm_compute in H.
      destruct H as [H | []]. discriminate H.
  - exists message. vm_compute in Hrun. injection Hrun as <-.
    vm_compute. auto.
Defined.

Lemma get_stats_message_report o nr se du em fi p :
  let self := mkDataCleaner
    (mkStats (Some o) (Some nr) (Some se) (Some du) (Some em) (Some fi) (Some p)) in
  ∃ rest,
    get_stats_message self = (self, inr (py "📊 Статистика обработки:" ++ rest)).
Proof.
  intros self. eexists.
  unfold get_stats_message, bind, getitem, get_stats, ret, raise.
  cbn [stats stats_truthy negb original final removed_non_russian
       removed_search removed_duplicates removed_empty removed_percentage].
  reflexivity.
Qed.

(** The report of a complete statistics record, line by line. *)
Lemma get_stats_message_full o nr se du em fi p :
  let self := mkDataCleaner
    (mkStats (Some o) (Some nr) (Some se) (Some du) (Some em) (Some fi) (Some p)) in
  get_stats_message self =
    (self,
     inr (py "📊 Статистика обработки:" ++ nl ++
          py "• Исходное количество записей: " ++ str_int o ++ nl ++
          py "• Конечное количество записей: " ++ str_int fi ++ nl ++
          py "• Удалено не-РФ доменов: " ++ str_int nr ++ nl ++
          py "• Удалено поисковиков: " ++ str_int se ++ nl ++
          py "• Удалено дублей: " ++ str_int du ++ nl ++
          py "• Удалено пустых записей: " ++ str_int em ++ nl ++
          py "• Процент удалённых записей: " ++ format_2f p ++ py "%")).
Proof.
  intros self.
  unfold get_stats_message, bind, getitem, get_stats, ret, raise.
  cbn [stats stats_truthy negb original final removed_non_russian
       removed_search removed_duplicates removed_empty removed_percentage].
  reflexivity.
Qed.

(** C4, as the code has it: a run that raises returns no table.  When the
    sheet cannot be read the cleaner is left as it was.  When a required
    column is absent the statistics have already been reset: [original] is
    the number of rows read and the other six entries are zero, and
    [get_stats_message] returns the report of these values.  When the sheet
    cannot be written the cleaner holds the statistics of the run, the same
    seven values it holds when that run writes its table: [original] is the
    number of rows read, [final] the number of rows of the table that was to
    be written, and [get_stats_message] returns the report of these seven
    values.  The only other exception a run raises is [KeyError]. *)
Theorem failed_run_statistics input writable self self' exc :
  clean_file input writable self = (self', inl exc) →
  (input = inl exc ∧ self' = self) ∨
  (∃ df message,
     input = inr df ∧ ¬ REQUIRED_COLUMNS ⊆ columns df ∧
     exc = ValueError message ∧
     stats self' = mkStats (Some (len (data df))) (Some 0) (Some 0) (Some 0)
                           (Some 0) (Some 0) (Some 0%Q) ∧
     get_stats_message self' =
       (self',
        inr (py "📊 Статистика обработки:" ++ nl ++
             py "• Исходное количество записей: " ++ str_int (len (data df)) ++ nl ++
             py "• Конечное количество записей: 0" ++ nl ++
             py "• Удалено не-РФ доменов: 0" ++ nl ++
             py "• Удалено поисковиков: 0" ++ nl ++
             py "• Удалено дублей: 0" ++ nl ++
             py "• Удалено пустых записей: 0" ++ nl ++
             py "• Процент удалённых записей: 0.00%"))) ∨
  (∃ df out n_zone n_search n_duplicate n_empty p,
     input = inr df ∧ REQUIRED_COLUMNS ⊆ columns df ∧
     writable = false ∧ exc = OSError ∧
     clean_file (inr df) true self = (self', inr out) ∧
     stats self' = mkStats (Some (len (data df))) (Some n_zone) (Some n_search)
                           (Some n_duplicate) (Some n_empty)
                           (Some (len (rows_of out))) (Some p) ∧
     get_stats_message self' =
       (self',
        inr (py "📊 Статистика обработки:" ++ nl ++
             py "• Исходное количество записей: " ++ str_int (len (data df)) ++ nl ++
             py "• Конечное количество записей: " ++ str_int (len (rows_of out)) ++ nl ++
             py "• Удалено не-РФ доменов: " ++ str_int n_zone ++ nl ++
             py "• Удалено поисковиков: " ++ str_int n_search ++ nl ++
             py "• Удалено дублей: " ++ str_int n_duplicate ++ nl ++
             py "• Удалено пустых записей: " ++ str_int n_empty ++ nl ++
             py "• Процент удалённых записей: " ++ format_2f p ++ py "%"))) ∨
  (∃ df key, input = inr df ∧ exc = KeyError key).
Proof.
  intros Hrun. destruct input as [exc' | df].
  - left. rewrite clean_file_unreadable in Hrun. by injection Hrun as <- <-.
  - right. destruct (required_columns_dec df) as [Hc | Hc].
    + right. destruct (getitem_required_ok df Hc) as (t0 & Hget & Hlen).
      destruct (decide (List.filter zone_test t0 = [])) as [E | E].
      * right. rewrite (clean_file_no_zone_rows _ _ _ _ Hc Hget E) in Hrun.
        exists df. destruct t0; injection Hrun as _ <-; by eexists.
      * left. rewrite (clean_file_valid _ _ _ _ Hc Hget E) in Hrun.
        destruct writable; [discriminate |]. injection Hrun as <- <-.
        exists df. eexists (Rows _), _, _, _, _, _.
        repeat (split; [done |]).
        split; [exact (clean_file_valid df true self t0 Hc Hget E) |].
        split; [reflexivity |]. apply get_stats_message_full.
    + left. rewrite clean_file_invalid in Hrun by done.
      injection Hrun as <- <-. exists df. eexists.
      repeat (split; [done |]). reflexivity.
Qed.

Lemma failed_run_statistics_witness :
  stats (clean_file (inr domain_only_frame) true __init__).1 =
  mkStats (Some 1) (Some 0) (Some 0) (Some 0) (Some 0) (Some 0) (Some 0%Q).
Proof.
  destruct (failed_run_statistics (inr domain_only_frame) true __init__
              (clean_file (inr domain_only_frame) true __init__).1
              (ValueError (py "Отсутствуют обязательные колонки: Значение, Заголовок, META Description"))
              eq_refl)
    as [[H _] | [(df & message & H & _ & _ & Hstats & _) |
                 [(df & out & n_zone & n_search & n_duplicate & n_empty & p &
                   _ & _ & H & _) | (df & key & _ & H)]]].
  - discriminate H.
  - injection H as <-. exact Hstats.
  - discriminate H.
  - discriminate H.
Defined.

(** C4 as stated fails: over a sheet that lacks required columns the run
    raises, and the cleaner then holds a statistics record and reports it
    instead of the no-statistics message. *)
Lemma failed_validation_reports_statistics :
  let run := clean_file (inr domain_only_frame) true __init__ in
  run.2 = inl (ValueError
    (py "Отсутствуют обязательные колонки: Значение, Заголовок, META Description")) ∧
  stats run.1 = mkStats (Some 1) (Some 0) (Some 0) (Some 0) (Some 0)
                        (Some 0) (Some 0%Q) ∧
  (get_stats_message __init__).2 = inr no_stats_message ∧
  (get_stats_message run.1).2 =
    inr (py "📊 Статистика обработки:" ++ nl ++
         py "• Исходное количество записей: 1" ++ nl ++
         py "• Конечное количество записей: 0" ++ nl ++
         py "• Удалено не-РФ доменов: 0" ++ nl ++
         py "• Удалено поисковиков: 0" ++ nl ++
         py "• Удалено дублей: 0" ++ nl ++
         py "• Удалено пустых записей: 0" ++ nl ++
         py "• Процент удалённых записей: 0.00%") ∧
  (get_stats_message run.1).2 ≠ inr no_stats_message.
Proof.
  vm_compute. repeat split; try reflexivity. discriminate.
Qed.

(** ** The stages *)

Lemma zone_test_eq r :
  zone_test r =
  existsb (λ zone, endswith (strip (lower (astype_str (Domain r)))) zone)
          RUSSIAN_ZONES.
Proof.
  unfold zone_test, _is_russian_domain.
  by rewrite strip_idemp, <- strip_lower, lower_idemp.
Qed.

Lemma search_test_eq r :
  search_test r =
  existsb (λ marker, contains marker (lower (astype_str (Domain r))))
          SEARCH_ENGINE_DOMAINS.
Proof.
  unfold search_test, _is_search_engine_domain.
  rewrite <- strip_lower, lower_idemp.
  unfold SEARCH_ENGINE_DOMAINS. cbn [existsb].
  by rewrite !contains_strip by reflexivity.
Qed.

Lemma existsb_elem_of {A} (f : A → bool) l :
  existsb f l = true ↔ ∃ x, x ∈ l ∧ f x = true.
Proof.
  rewrite existsb_exists. by setoid_rewrite list_elem_of_In.
Qed.

Lemma rows_of_nonempty_match (t rows : Table) :
  (t = [] → rows = []) →
  rows_of (match t with [] => NoColumns | _ :: _ => Rows rows end) = rows.
Proof. destruct t; [intros H; by rewrite H | done]. Qed.

(** C5: the zone stage keeps a row exactly when its Domain, lower-cased and
    stripped, ends with one of [RUSSIAN_ZONES]; the rows kept stay in order
    and the count removed is the difference of the lengths. *)
Theorem zone_filter_suffix_exact :
  (∀ t, ∃ filtered_df removed,
     _filter_russian_domains (Rows t) = ret (filtered_df, removed) ∧
     (∀ r, r ∈ rows_of filtered_df ↔
           r ∈ t ∧ ∃ zone p, zone ∈ RUSSIAN_ZONES ∧
                             strip (lower (astype_str (Domain r))) = p ++ zone) ∧
     rows_of filtered_df `sublist_of` t ∧
     removed = len t - len (rows_of filtered_df)) ∧
  _filter_russian_domains (Rows
     [ domain_row "shop.ru"; domain_row "ru.info"; domain_row "example.su";
       domain_row "example.suv"; domain_row " Shop.RU "; domain_row "сайт.РФ" ])
  = ret (Rows [ domain_row "shop.ru"; domain_row "example.su";
                domain_row " Shop.RU "; domain_row "сайт.РФ" ], 2).
Proof.
  split; [| reflexivity].
  intros t. eexists _, _. split; [apply _filter_russian_domains_eq |].
  rewrite rows_of_nonempty_match by (by intros ->). split; [| split].
  - intros r. rewrite elem_of_List_filter, zone_test_eq, existsb_elem_of.
    setoid_rewrite endswith_spec. split.
    + intros (Hr & zone & Hzone & p & Hp). split; [done |]. by exists zone, p.
    + intros (Hr & zone & p & Hzone & Hp). split; [done |].
      exists zone. split; [done |]. by exists p.
  - apply sublist_filter_bool.
  - done.
Qed.

(** C6: the search-engine stage drops a row exactly when its lower-cased
    Domain contains one of [SEARCH_ENGINE_DOMAINS] anywhere; the other rows
    stay in order, and the count removed is the number of rows dropped. *)
Theorem search_filter_substring :
  (∀ t, ∃ filtered_df removed,
     _filter_search_engines (Rows t) = ret (filtered_df, removed) ∧
     rows_of filtered_df =
       List.filter
         (λ r, negb (existsb
                  (λ marker, contains marker (lower (astype_str (Domain r))))
                  SEARCH_ENGINE_DOMAINS)) t ∧
     removed = len t - len (rows_of filtered_df)) ∧
  (∀ r,
     existsb (λ marker, contains marker (lower (astype_str (Domain r))))
             SEARCH_ENGINE_DOMAINS = true ↔
     ∃ marker a b, marker ∈ SEARCH_ENGINE_DOMAINS ∧
                   lower (astype_str (Domain r)) = a ++ marker ++ b) ∧
  _filter_search_engines (Rows
    [ domain_row "www.google.com.proxy"; domain_row "shop.ru";
      domain_row "Google.RU"; domain_row "yandex.ru" ])
  = ret (Rows [ domain_row "shop.ru"; domain_row "yandex.ru" ], 2).
Proof.
  split; [| split; [| reflexivity]].
  - intros t. eexists _, _. split; [apply _filter_search_engines_eq |].
    rewrite rows_of_nonempty_match by (by intros ->). split.
    + apply filter_ext. intros r. by rewrite search_test_eq.
    + pose proof (len_filter_split search_test t). lia.
  - intros r. rewrite existsb_elem_of. setoid_rewrite contains_spec. split.
    + intros (marker & Hm & a & b & Hab). by exists marker, a, b.
    + intros (marker & a & b & Hm & Hab). exists marker. split; [done |].
      by exists a, b.
Qed.

(** *** Deduplication *)

Section keep_first.
Implicit Types (seen : list cell) (df pre post : Table).

Lemma drop_duplicates_from_ext seen seen' df :
  (∀ d, d ∈ seen ↔ d ∈ seen') →
  drop_duplicates_from seen df = drop_duplicates_from seen' df.
Proof.
  revert seen seen'. induction df as [|r df IH]; intros seen seen' H; [done |].
  cbn [drop_duplicates_from].
  rewrite (bool_decide_ext _ _ (H (Domain r))).
  case_bool_decide; [by apply IH |].
  f_equal. apply IH. intros d. rewrite !elem_of_cons, H. tauto.
Qed.

Lemma drop_duplicates_from_app seen pre post :
  drop_duplicates_from seen (pre ++ post) =
  drop_duplicates_from seen pre ++
  drop_duplicates_from (map Domain pre ++ seen) post.
Proof.
  revert seen. induction pre as [|r pre IH]; intros seen; [done |].
  cbn [app drop_duplicates_from map]. case_bool_decide as Hr.
  - rewrite IH. f_equal. apply drop_duplicates_from_ext.
    intros d. rewrite elem_of_cons, !elem_of_app.
    split; [tauto |]. intros [-> | ?]; auto.
  - rewrite IH. cbn [app]. do 2 f_equal. apply drop_duplicates_from_ext.
    intros d. rewrite elem_of_cons, !elem_of_app, elem_of_cons. tauto.
Qed.

Lemma drop_duplicates_from_sublist seen df :
  drop_duplicates_from seen df `sublist_of` df.
Proof.
  revert seen. induction df as [|r df IH]; intros seen; cbn; [constructor |].
  case_bool_decide; [apply sublist_cons | apply sublist_skip]; apply IH.
Qed.

Lemma drop_duplicates_from_fresh seen df r :
  r ∈ drop_duplicates_from seen df → Domain r ∉ seen.
Proof.
  revert seen. induction df as [|r' df IH]; intros seen; cbn;
    [by intros ?%not_elem_of_nil |].
  case_bool_decide as Hr'; [apply IH |].
  intros [-> | H]%elem_of_cons; [done |].
  apply IH in H. intros Hin. apply H. by constructor.
Qed.

Lemma drop_duplicates_from_NoDup seen df :
  NoDup (map Domain (drop_duplicates_from seen df)).
Proof.
  revert seen. induction df as [|r df IH]; intros seen; cbn; [constructor |].
  case_bool_decide as Hr; [apply IH |].
  cbn. constructor; [| apply IH].
  intros (r' & Hd & Hin)%(list_elem_of_fmap_1 Domain).
  apply drop_duplicates_from_fresh in Hin. apply Hin. rewrite <- Hd. constructor.
Qed.

Lemma drop_duplicates_from_domains seen df d :
  d ∈ map Domain df → d ∈ seen ∨ d ∈ map Domain (drop_duplicates_from seen df).
Proof.
  revert seen. induction df as [|r df IH]; intros seen; cbn;
    [by intros ?%not_elem_of_nil |].
  intros [-> | H]%elem_of_cons.
  - case_bool_decide; [by left | right; constructor].
  - case_bool_decide as Hr; [by apply IH |].
    destruct (IH (Domain r :: seen) H) as [[-> | Hs]%elem_of_cons | Hd].
    + right. constructor.
    + by left.
    + right. by constructor.
Qed.

Lemma keep_first_NoDup_id df :
  NoDup (map Domain df) → keep_first df = df.
Proof.
  unfold keep_first. intros H.
  assert (Hgen : ∀ seen, (∀ d, d ∈ seen → d ∉ map Domain df) →
                         drop_duplicates_from seen df = df).
  { induction df as [|r df IH]; intros seen Hseen; [done |].
    cbn in *. apply NoDup_cons in H as [Hr Hnd].
    rewrite bool_decide_eq_false_2.
    - f_equal. apply IH; [done |]. intros d [-> | Hd]%elem_of_cons; [done |].
      intros Hin. apply (Hseen d Hd). by constructor.
    - intros Hin. apply (Hseen _ Hin). constructor. }
  apply Hgen. by intros d ?%not_elem_of_nil.
Qed.
End keep_first.

(** C7: deduplication keeps a row exactly when no earlier row has the same
    Domain cell, compared as read (no lower-casing, no stripping).  The rows
    kept stay in order and are not changed. *)
Theorem drop_duplicates_keeps_first :
  (∀ pre r post,
     drop_duplicates (Rows (pre ++ r :: post)) =
     Rows (rows_of (drop_duplicates (Rows pre)) ++
           (if bool_decide (Domain r ∈ map Domain pre) then [] else [r]) ++
           drop_duplicates_from (Domain r :: map Domain pre) post)) ∧
  (∀ seen post, drop_duplicates_from seen post `sublist_of` post) ∧
  (∀ t, NoDup (map Domain (rows_of (drop_duplicates (Rows t)))) ∧
        ∀ d, d ∈ map Domain t ↔
             d ∈ map Domain (rows_of (drop_duplicates (Rows t)))) ∧
  drop_duplicates (Rows
    [ domain_row "a.ru"; domain_row "b.ru"; domain_row "c.ru";
      domain_row "d.ru"; domain_row "a.ru" ])
  = Rows [ domain_row "a.ru"; domain_row "b.ru"; domain_row "c.ru";
           domain_row "d.ru" ] ∧
  drop_duplicates (Rows
    [ domain_row "a.ru"; domain_row "A.ru"; domain_row " a.ru";
      domain_row "a.ru" ])
  = Rows [ domain_row "a.ru"; domain_row "A.ru"; domain_row " a.ru" ].
Proof.
  split; [| split; [| split; [| split; reflexivity ]]].
  - intros pre r post. cbn [drop_duplicates rows_of]. f_equal.
    unfold keep_first.
    rewrite drop_duplicates_from_app, app_nil_r. f_equal.
    cbn [drop_duplicates_from]. case_bool_decide as Hr; [| done].
    apply drop_duplicates_from_ext. intros d. rewrite elem_of_cons.
    split; [auto |]. by intros [-> | ?].
  - apply drop_duplicates_from_sublist.
  - intros t. cbn [drop_duplicates rows_of].
    split; [apply drop_duplicates_from_NoDup |].
    intros d. split.
    + intros H. by destruct (drop_duplicates_from_domains [] t d H)
        as [?%not_elem_of_nil | ?].
    + apply sublist_subseteq, fmap_sublist, drop_duplicates_from_sublist.
Qed.

(** *** Empty values *)

Lemma non_empty_test_eq r :
  non_empty_test r =
  negb (bool_decide (strip (astype_str (Value r)) = []) ||
        bool_decide (strip (astype_str (Domain r)) = [])).
Proof.
  unfold non_empty_test. rewrite negb_orb.
  by rewrite <- !bool_decide_not.
Qed.

(** C8 fails on a row whose Value cell is empty.  [pd.read_excel] returns a
    missing value for an empty cell, [astype(str)] turns it into the text
    "nan", which is not the empty string after stripping, and the stage that
    is to drop the rows with an empty Value keeps the row.  In the run over a
    sheet with that one row nothing is counted as empty and the row is
    written, with the Value "nan". *)
Theorem missing_value_not_dropped :
  _drop_empty_values
    (Rows [mkRow NaN (Text (py "c.ru")) (Text (py "T")) (Text (py "D"))])
  = ret (Rows [mkRow (Text (py "nan")) (Text (py "c.ru")) (Text (py "T"))
                     (Text (py "D"))], 0) ∧
  clean_file (inr missing_value_frame) true __init__ =
    (mkDataCleaner
       (mkStats (Some 1) (Some 0) (Some 0) (Some 0) (Some 0) (Some 1)
                (Some (0 # 1))),
     inr (Rows [mkRow (Text (py "nan")) (Text (py "c.ru")) (Text (py "T"))
                      (Text (py "D"))])).
Proof. split; [reflexivity | by vm_compute]. Qed.

(** X19: the test of the empty-value stage, on the texts that [astype(str)]
    gives.  The stage drops a row exactly when the stripped text of its
    Value or of its Domain is the empty string; a row it keeps has these two
    cells replaced by their stripped text.  Title and META Description play
    no part: whatever they hold, missing or blank included, the row is kept
    or dropped alike.  The text of a missing cell is "nan", so a row with a
    missing Value is kept. *)
Theorem drop_empty_values_condition :
  (∀ t, ∃ non_empty_df removed,
     _drop_empty_values (Rows t) = ret (non_empty_df, removed) ∧
     rows_of non_empty_df =
       map strip_key_columns
         (List.filter
            (λ r, negb (bool_decide (strip (astype_str (Value r)) = []) ||
                        bool_decide (strip (astype_str (Domain r)) = []))) t) ∧
     removed = len t - len (rows_of non_empty_df)) ∧
  (∀ value domain title description title' description',
     ∃ kept kept' removed,
       _drop_empty_values (Rows [mkRow value domain title description])
         = ret (Rows kept, removed) ∧
       _drop_empty_values (Rows [mkRow value domain title' description'])
         = ret (Rows kept', removed) ∧
       length kept = length kept') ∧
  _drop_empty_values (Rows
    [ mkRow (Text (py " x ")) (Text (py "a.ru")) NaN (Text []);
      mkRow (Text (py "   ")) (Text (py "b.ru")) (Text (py "T")) (Text (py "D"));
      mkRow (Text (py "y")) (Text []) (Text (py "T")) (Text (py "D"));
      mkRow NaN (Text (py "c.ru")) (Text (py "  ")) NaN ])
  = ret (Rows [ mkRow (Text (py "x")) (Text (py "a.ru")) NaN (Text []);
                mkRow (Text (py "nan")) (Text (py "c.ru")) (Text (py "  ")) NaN ],
         2).
Proof.
  split; [| split; [| reflexivity]].
  - intros t. eexists _, _. split; [apply _drop_empty_values_eq |].
    cbn [rows_of]. split.
    + f_equal. apply filter_ext. intros r. apply non_empty_test_eq.
    + unfold len. by rewrite length_map.
  - intros. rewrite !_drop_empty_values_eq. cbn [List.filter].
    unfold non_empty_test. cbn [Value Domain].
    destruct (_ && _); eexists _, _, _; repeat split; reflexivity.
Qed.

(** ** The written table *)

(** C10 fails on a row whose Value cell is empty.  Of the two rows of
    [padded_and_missing_frame] the first is written with its Value and its
    Domain stripped and its other two cells as read.  The second is read
    with a missing Value and written with the Value "nan": a text that is
    not the stripped input value, since the input has no text there.  Its
    Title and META Description are written as read, the missing one
    included. *)
Theorem missing_value_written_as_nan :
  getitem_required padded_and_missing_frame =
    ret (Rows [ mkRow (Text (py " x ")) (Text (py " a.ru ")) (Text (py "T1"))
                      (Text (py "D1"));
                mkRow NaN (Text (py "c.ru")) (Text (py " T2 ")) NaN ]) ∧
  (clean_file (inr padded_and_missing_frame) true __init__).2 =
    inr (Rows [ mkRow (Text (py "x")) (Text (py "a.ru")) (Text (py "T1"))
                      (Text (py "D1"));
                mkRow (Text (py "nan")) (Text (py "c.ru")) (Text (py " T2 "))
                      NaN ]).
Proof. split; [reflexivity | by vm_compute]. Qed.

(** X20: every row of the table a run writes comes from a row of the
    projected input, in the same order, with Title and META Description as
    they were read and with Value and Domain replaced by the stripped text
    that [astype(str)] gives for the cell: the stripped text of a text cell,
    and "nan" for a missing Value. *)
Theorem written_rows_frame df writable self self' out :
  clean_file (inr df) writable self = (self', inr out) →
  ∃ t0 kept written,
    getitem_required df = ret (Rows t0) ∧
    out = Rows written ∧
    kept `sublist_of` t0 ∧
    Forall2 (λ row_written row_read,
               Title row_written = Title row_read ∧
               MetaDescription row_written = MetaDescription row_read ∧
               Value row_written = Text (strip (astype_str (Value row_read))) ∧
               Domain row_written = Text (strip (astype_str (Domain row_read))))
            written kept.
Proof.
  intros Hrun.
  destruct (clean_file_returns _ _ _ _ _ Hrun)
    as (t0 & Hc & -> & Hget & Hlen & Hne).
  rewrite (clean_file_valid _ _ _ _ Hc Hget Hne) in Hrun.
  injection Hrun as _ <-.
  eexists t0, _, _. split; [exact Hget |]. split; [reflexivity |]. split.
  - etrans; [apply sublist_filter_bool |].
    etrans; [apply drop_duplicates_from_sublist |].
    etrans; apply sublist_filter_bool.
  - apply Forall2_fmap_l, Forall_Forall2_diag, Forall_forall. by intros r _.
Qed.

Lemma written_rows_frame_witness :
  ∃ kept,
    Forall2 (λ row_written row_read,
               Title row_written = Title row_read ∧
               MetaDescription row_written = MetaDescription row_read ∧
               Value row_written = Text (strip (astype_str (Value row_read))) ∧
               Domain row_written = Text (strip (astype_str (Domain row_read))))
            (rows_of padded_cleaned) kept.
Proof.
  destruct (written_rows_frame padded_frame true __init__
              (clean_file (inr padded_frame) true __init__).1 padded_cleaned
              eq_refl)
    as (t0 & kept & written & _ & Hout & _ & H).
  exists kept. injection Hout as <-. exact H.
Defined.

(** ** Running the cleaner on its own output *)

Section rerun.
Implicit Types (r : Row) (rows : Table).

Lemma zone_test_strip_key_columns r :
  zone_test (strip_key_columns r) = zone_test r.
Proof.
  rewrite !zone_test_eq. cbn [strip_key_columns Domain astype_str].
  by rewrite <- strip_lower, strip_idemp.
Qed.

Lemma search_test_strip_key_columns r :
  search_test (strip_key_columns r) = search_test r.
Proof.
  rewrite !search_test_eq. cbn [strip_key_columns Domain astype_str].
  rewrite <- strip_lower. unfold SEARCH_ENGINE_DOMAINS. cbn [existsb].
  by rewrite !contains_strip by reflexivity.
Qed.

Lemma non_empty_test_strip_key_columns r :
  non_empty_test (strip_key_columns r) = non_empty_test r.
Proof.
  unfold non_empty_test. cbn [strip_key_columns Value Domain astype_str].
  by rewrite !strip_idemp.
Qed.

Lemma strip_key_columns_idemp r :
  strip_key_columns (strip_key_columns r) = strip_key_columns r.
Proof.
  unfold strip_key_columns at 1. cbn [strip_key_columns Value Domain Title
    MetaDescription astype_str].
  by rewrite !strip_idemp.
Qed.

(** What every row of a written table satisfies. *)
Lemma written_rows_pass df writable self self' out :
  clean_file (inr df) writable self = (self', inr out) →
  ∃ rows, out = Rows rows ∧
    ∀ r, r ∈ rows →
         zone_test r = true ∧ search_test r = false ∧
         non_empty_test r = true ∧ strip_key_columns r = r.
Proof.
  intros Hrun.
  destruct (clean_file_returns _ _ _ _ _ Hrun)
    as (t0 & Hc & -> & Hget & Hlen & Hne).
  rewrite (clean_file_valid _ _ _ _ Hc Hget Hne) in Hrun.
  injection Hrun as _ <-. eexists. split; [reflexivity |].
  intros r' (r & -> & Hr)%list_elem_of_fmap.
  apply elem_of_List_filter in Hr as [Hr Hnon].
  apply (sublist_subseteq _ _ (drop_duplicates_from_sublist _ _)) in Hr.
  apply elem_of_List_filter in Hr as [Hr Hs].
  apply elem_of_List_filter in Hr as [Hr Hz].
  rewrite zone_test_strip_key_columns, search_test_strip_key_columns,
    non_empty_test_strip_key_columns, strip_key_columns_idemp.
  by apply negb_true_iff in Hs.
Qed.

Lemma ret_Rows_inj (t t' : Table) : @ret Frame (Rows t) = ret (Rows t') → t = t'.
Proof.
  intros H. apply (f_equal (λ m, m __init__)) in H. by injection H.
Qed.

Lemma zone_test_Domain r r' :
  Domain r = Domain r' → zone_test r = zone_test r'.
Proof. unfold zone_test. by intros ->. Qed.

Lemma search_test_Domain r r' :
  Domain r = Domain r' → search_test r = search_test r'.
Proof. unfold search_test. by intros ->. Qed.

(** Which rows deduplication keeps depends on the Domain column only. *)
Lemma drop_duplicates_from_same_domains seen rows rows' :
  map Domain rows = map Domain rows' →
  map Domain (drop_duplicates_from seen rows) =
  map Domain (drop_duplicates_from seen rows').
Proof.
  revert seen rows'. induction rows as [|r rows IH];
    intros seen [|r' rows'] H; try done.
  injection H as Hd Hrest. cbn [drop_duplicates_from]. rewrite Hd.
  case_bool_decide; [by apply IH |].
  cbn [map]. rewrite Hd. f_equal. by apply IH.
Qed.

Lemma same_domain_row rows rows' r' :
  map Domain rows' = map Domain rows → r' ∈ rows' →
  ∃ r, r ∈ rows ∧ Domain r = Domain r'.
Proof.
  intros H Hr'.
  assert (Hd : Domain r' ∈ map Domain rows)
    by (rewrite <- H; by apply list_elem_of_fmap_2).
  apply list_elem_of_fmap in Hd as (r & Hd & Hr). eauto.
Qed.
End rerun.

(** C2, as the code has it.  A run has written a table with at least one
    row, and a second run reads a sheet with the four required columns whose
    rows are those of the table, in order: with the Domain cells that were
    written, with Value cells whose text is not blank, and with any Title and
    META Description.  (Reading the written sheet needs this latitude:
    [pd.read_excel] returns a written text as a missing value when it is one
    of "NA", "null", "None", "N/A", "nan" and the like, and a column of digit
    texts as numbers.)  The second run removes nothing at the zone,
    search-engine and empty-value stages.  Deduplication now compares the
    stripped Domains, so it removes the rows whose Domain repeats an earlier
    one, and the Domain column it writes is the one deduplication leaves of
    the table.  When no two rows of the table have the same Domain, nothing
    is removed at all: the four counters are zero, the final count is the
    original count and the Domain column written is the same. *)
Theorem rerun_on_written_table df writable self self1 out df2 t2 self2 :
  clean_file (inr df) writable self = (self1, inr out) →
  rows_of out ≠ [] →
  REQUIRED_COLUMNS ⊆ columns df2 →
  getitem_required df2 = ret (Rows t2) →
  map Domain t2 = map Domain (rows_of out) →
  Forall (λ r, strip (astype_str (Value r)) ≠ []) t2 →
  ∃ p written,
    clean_file (inr df2) true self2 =
    (mkDataCleaner
       (mkStats (Some (len (rows_of out))) (Some 0) (Some 0)
                (Some (len (rows_of out) - len (rows_of (drop_duplicates out))))
                (Some 0)
                (Some (len (rows_of (drop_duplicates out)))) (Some p)),
     inr (Rows written)) ∧
    map Domain written = map Domain (rows_of (drop_duplicates out)) ∧
    (NoDup (map Domain (rows_of out)) →
     len (rows_of out) - len (rows_of (drop_duplicates out)) = 0 ∧
     len (rows_of (drop_duplicates out)) = len (rows_of out) ∧
     map Domain written = map Domain (rows_of out) ∧
     (p == 0)%Q).
Proof.
  intros Hrun Hrows Hc Hget Hdom Hval.
  destruct (written_rows_pass _ _ _ _ _ Hrun) as (rows & -> & Hpass).
  cbn [rows_of drop_duplicates] in *.
  assert (Hsame : ∀ r', r' ∈ t2 → ∃ r, r ∈ rows ∧ Domain r = Domain r')
    by (intros r'; by apply same_domain_row).
  assert (Hz : List.filter zone_test t2 = t2).
  { apply List_filter_all. intros r' (r & Hr & Hd)%Hsame.
    rewrite <- (zone_test_Domain _ _ Hd). by apply Hpass. }
  assert (Hs : List.filter (λ r, negb (search_test r)) t2 = t2).
  { apply List_filter_all. intros r' (r & Hr & Hd)%Hsame.
    rewrite <- (search_test_Domain _ _ Hd). apply negb_true_iff.
    by apply Hpass. }
  assert (Hin : ∀ r, r ∈ keep_first t2 → r ∈ t2)
    by apply sublist_subseteq, drop_duplicates_from_sublist.
  assert (Hnon : List.filter non_empty_test (keep_first t2) = keep_first t2).
  { apply List_filter_all. intros r' Hr'%Hin.
    destruct (Hsame r' Hr') as (r & Hr & Hd).
    destruct (Hpass r Hr) as (_ & _ & Hne & _).
    unfold non_empty_test in *. rewrite <- Hd.
    apply andb_true_iff in Hne as [_ ->]. rewrite andb_true_r.
    apply bool_decide_eq_true_2. by apply (proj1 (Forall_forall _ _) Hval). }
  assert (Hkeep : map Domain (keep_first t2) = map Domain (keep_first rows))
    by (by apply drop_duplicates_from_same_domains).
  assert (Hwritten : map Domain (map strip_key_columns (keep_first t2)) =
                     map Domain (keep_first rows)).
  { rewrite map_map. cbn [strip_key_columns Domain].
    rewrite <- (map_map Domain (λ c, Text (strip (astype_str c)))), Hkeep.
    rewrite map_map. apply map_ext_in. intros r Hr%list_elem_of_In.
    assert (Hr' : r ∈ rows)
      by (revert Hr; apply sublist_subseteq, drop_duplicates_from_sublist).
    destruct (Hpass r Hr') as (_ & _ & _ & Hid).
    by rewrite <- Hid at 2. }
  assert (Hlen2 : len t2 = len rows)
    by (unfold len; by rewrite <- (length_map Domain t2), Hdom, length_map).
  assert (Hlenk : len (keep_first t2) = len (keep_first rows)).
  { unfold len. by rewrite <- (length_map Domain (keep_first t2)), Hkeep,
      length_map. }
  assert (Hdata : len (data df2) = len rows).
  { destruct (getitem_required_ok df2 Hc) as (t & Hget' & <-).
    rewrite Hget in Hget'. by rewrite <- (ret_Rows_inj _ _ Hget'). }
  assert (Hzne : List.filter zone_test t2 ≠ []).
  { rewrite Hz. intros ->. by destruct rows. }
  exists (percentage (len rows) (len (keep_first rows))),
    (map strip_key_columns (keep_first t2)).
  split; [| split; [exact Hwritten |]].
  - rewrite (clean_file_valid df2 true self2 t2 Hc Hget Hzne).
    rewrite Hz, Hs, Hnon, Hdata.
    rewrite (len_filter_none search_test t2).
    + assert (Hlenw : len (map strip_key_columns (keep_first t2)) =
                      len (keep_first rows))
        by (rewrite <- Hlenk; unfold len; by rewrite length_map).
      by rewrite Hlenw, Hlenk, Hlen2, !Z.sub_diag.
    + intros r' (r & Hr & Hd)%Hsame.
      rewrite <- (search_test_Domain _ _ Hd). by apply Hpass.
  - intros Hnd. rewrite Hwritten, (keep_first_NoDup_id rows Hnd), Z.sub_diag.
    repeat (split; [done |]).
    unfold percentage. rewrite Z.sub_diag. by case_bool_decide.
Qed.

Lemma rerun_on_written_table_witness :
  (clean_file (inr na_frame) true __init__).2 = inr na_cleaned ∧
  clean_file (inr na_reread) true __init__ =
  (mkDataCleaner
     (mkStats (Some 2) (Some 0) (Some 0) (Some 0) (Some 0) (Some 2)
              (Some (0 # 2))),
   inr (Rows
     [ mkRow (Text (py "nan")) (Text (py "shop.ru")) (Text (py "T1"))
             (Text (py "D1"));
       mkRow (Text (py "z")) (Text (py "news.su")) (Text (py "T4"))
             (Text (py "D4")) ])).
Proof.
  split; [reflexivity |].
  destruct (rerun_on_written_table na_frame true __init__
              (clean_file (inr na_frame) true __init__).1
              na_cleaned na_reread
              [ mkRow NaN (Text (py "shop.ru")) (Text (py "T1")) (Text (py "D1"));
                mkRow (Text (py "z")) (Text (py "news.su")) (Text (py "T4"))
                      (Text (py "D4")) ]
              __init__ eq_refl)
    as (p & written & Hrun & _).
  - discriminate.
  - intros column Hcolumn. exact Hcolumn.
  - reflexivity.
  - reflexivity.
  - repeat constructor; discriminate.
  - rewrite Hrun. vm_compute in Hrun. injection Hrun as <- <-. reflexivity.
Defined.

(** C2 as stated fails: two rows whose Domain cells are "a.ru" and " a.ru"
    both pass the first run, which strips them to the same text; the second
    run, over the sheet the first has written, then removes one of them as
    a duplicate. *)
Lemma rerun_removes_stripped_duplicate :
  let first := clean_file (inr padded_frame) true __init__ in
  let second := clean_file (inr padded_reread) true __init__ in
  first.2 = inr padded_cleaned ∧
  stats first.1 = mkStats (Some 2) (Some 0) (Some 0) (Some 0) (Some 0)
                          (Some 2) (Some (0 # 2)) ∧
  stats second.1 = mkStats (Some 2) (Some 0) (Some 0) (Some 1) (Some 0)
                           (Some 1) (Some (100 # 2)) ∧
  second.2 = inr (Rows [ mkRow (Text (py "x")) (Text (py "a.ru"))
                               (Text (py "T1")) (Text (py "D1")) ]).
Proof. vm_compute. repeat split; reflexivity. Qed.

(** * Further properties of the cleaner *)

(** ** The statistics record *)

Lemma get_stats_message_complete self :
  stats_complete (stats self) = true →
  ∃ message, get_stats_message self = (self, inr message).
Proof.
  destruct self as [[[o|] [nr|] [se|] [du|] [em|] [fi|] [p|]]]; try done.
  intros _. destruct (get_stats_message_report o nr se du em fi p) as [rest H].
  eauto.
Qed.

(** The cleaner after a run over a readable sheet: its statistics are
    complete, whatever the outcome. *)
Lemma clean_file_stats_complete df writable self :
  stats_complete (stats (clean_file (inr df) writable self).1) = true.
Proof.
  destruct (required_columns_dec df) as [Hc | Hc].
  - destruct (getitem_required_ok df Hc) as (t0 & Hget & Hlen).
    destruct (decide (List.filter zone_test t0 = [])) as [E | E].
    + rewrite (clean_file_no_zone_rows _ _ _ _ Hc Hget E). by destruct t0.
    + by rewrite (clean_file_valid _ _ _ _ Hc Hget E).
  - by rewrite clean_file_invalid.
Qed.

Lemma fresh_cleaner_message_returns input writable :
  ∃ message,
    get_stats_message (clean_file input writable __init__).1 =
    ((clean_file input writable __init__).1, inr message).
Proof.
  destruct input as [exc | df].
  - rewrite clean_file_unreadable. by exists no_stats_message.
  - apply get_stats_message_complete, clean_file_stats_complete.
Qed.

(** X1: [get_stats_message] never raises on a cleaner that [clean_file] has
    run on.  Starting from a cleaner whose statistics are empty or complete
    (a fresh one is), after any run, returning or raising, the statistics
    are again empty or complete, and [get_stats_message] returns a text and
    leaves the cleaner as it is. *)
Theorem get_stats_message_after_run input writable self :
  stats self = empty_stats ∨ stats_complete (stats self) = true →
  let self' := (clean_file input writable self).1 in
  (stats self' = empty_stats ∨ stats_complete (stats self') = true) ∧
  ∃ message, get_stats_message self' = (self', inr message).
Proof.
  intros Hself self'.
  assert (Hinv : stats self' = empty_stats ∨ stats_complete (stats self') = true).
  { subst self'. destruct input as [exc | df].
    - by rewrite clean_file_unreadable.
    - right. apply clean_file_stats_complete. }
  split; [done |]. destruct Hinv as [Hempty | Hcomplete].
  - exists no_stats_message. destruct self' as [s]. cbn in Hempty. by subst s.
  - by apply get_stats_message_complete.
Qed.

Lemma get_stats_message_after_run_witness :
  ∃ message,
    get_stats_message (clean_file (inr foreign_frame) true __init__).1 =
    ((clean_file (inr foreign_frame) true __init__).1, inr message).
Proof.
  destruct (get_stats_message_after_run (inr foreign_frame) true __init__)
    as [_ H].
  - left. reflexivity.
  - exact H.
Defined.

(** X2: a run over a readable sheet does not depend on what the cleaner
    held before: a reused cleaner gives the result and the statistics of a
    fresh one.  When the sheet cannot be read, the cleaner keeps the
    statistics of its previous run. *)
Theorem previous_statistics_do_not_leak :
  (∀ df writable self1 self2,
     clean_file (inr df) writable self1 = clean_file (inr df) writable self2) ∧
  (∀ exc writable self,
     clean_file (inl exc) writable self = (self, inl exc)).
Proof.
  split; [| done].
  intros df writable self1 self2.
  destruct (required_columns_dec df) as [Hc | Hc].
  - destruct (getitem_required_ok df Hc) as (t0 & Hget & Hlen).
    destruct (decide (List.filter zone_test t0 = [])) as [E | E].
    + by rewrite !(clean_file_no_zone_rows _ _ _ _ Hc Hget E).
    + by rewrite !(clean_file_valid _ _ _ _ Hc Hget E).
  - by rewrite !clean_file_invalid.
Qed.

(** ** Runs that return *)

Lemma zone_test_spec r :
  zone_test r = true ↔
  ∃ zone p, zone ∈ RUSSIAN_ZONES ∧
            strip (lower (astype_str (Domain r))) = p ++ zone.
Proof.
  rewrite zone_test_eq, existsb_elem_of. setoid_rewrite endswith_spec. split.
  - intros (zone & Hzone & p & Hp). by exists zone, p.
  - intros (zone & p & Hzone & Hp). exists zone. split; [done |]. by exists p.
Qed.

Lemma List_filter_nonempty {A} (f : A → bool) (l : list A) :
  List.filter f l ≠ [] ↔ ∃ x, x ∈ l ∧ f x = true.
Proof.
  split.
  - destruct (List.filter f l) as [|x l'] eqn:E; [done |]. intros _.
    exists x. apply elem_of_List_filter. rewrite E. constructor.
  - intros (x & Hx & Hf) E.
    assert (Hin : x ∈ List.filter f l) by by apply elem_of_List_filter.
    rewrite E in Hin. by apply not_elem_of_nil in Hin.
Qed.

(** X3: a run over a readable sheet returns exactly when the sheet has the
    four required columns, the output can be written, and at least one row
    is of a kept zone.  In every other case it raises. *)
Theorem run_returns_iff df writable self :
  (∃ self' out, clean_file (inr df) writable self = (self', inr out)) ↔
  REQUIRED_COLUMNS ⊆ columns df ∧ writable = true ∧
  ∃ t0 r, getitem_required df = ret (Rows t0) ∧ r ∈ t0 ∧
          ∃ zone p, zone ∈ RUSSIAN_ZONES ∧
                    strip (lower (astype_str (Domain r))) = p ++ zone.
Proof.
  split.
  - intros (self' & out & Hrun).
    destruct (clean_file_returns _ _ _ _ _ Hrun)
      as (t0 & Hc & -> & Hget & _ & Hne).
    split; [done |]. split; [done |].
    apply List_filter_nonempty in Hne as (r & Hr & Hz).
    exists t0, r. split; [done |]. split; [done |]. by apply zone_test_spec.
  - intros (Hc & -> & t0 & r & Hget & Hr & Hz).
    assert (Hne : List.filter zone_test t0 ≠ []).
    { apply List_filter_nonempty. exists r. split; [done |].
      by apply zone_test_spec. }
    rewrite (clean_file_valid _ _ _ _ Hc Hget Hne). eauto.
Qed.

(** X4: what every row of a written table satisfies.  Its Value and its
    Domain are texts without surrounding spaces, the Value is not empty, the
    lower-cased Domain ends with one of [RUSSIAN_ZONES] and contains none of
    [SEARCH_ENGINE_DOMAINS]. *)
Theorem written_rows_postcondition df writable self self' out :
  clean_file (inr df) writable self = (self', inr out) →
  ∀ r, r ∈ rows_of out →
    ∃ value domain,
      Value r = Text value ∧ Domain r = Text domain ∧
      strip value = value ∧ value ≠ [] ∧ strip domain = domain ∧
      (∃ zone p, zone ∈ RUSSIAN_ZONES ∧ lower domain = p ++ zone) ∧
      (∀ marker, marker ∈ SEARCH_ENGINE_DOMAINS →
                 contains marker (lower domain) = false).
Proof.
  intros Hrun r Hr.
  destruct (written_rows_pass _ _ _ _ _ Hrun) as (rows & -> & Hpass).
  destruct (Hpass r Hr) as (Hz & Hs & Hn & Hfix).
  destruct r as [v d t m]. unfold strip_key_columns in Hfix. cbn in Hfix.
  injection Hfix as Hv Hd.
  assert (∃ value, v = Text value ∧ strip value = value) as (value & -> & Hvalue)
    by (exists (strip (astype_str v)); by rewrite strip_idemp).
  assert (∃ domain, d = Text domain ∧ strip domain = domain)
    as (domain & -> & Hdomain)
    by (exists (strip (astype_str d)); by rewrite strip_idemp).
  clear Hv Hd. exists value, domain. cbn [Value Domain].
  repeat (split; [done |]).
  unfold non_empty_test in Hn. rewrite zone_test_spec in Hz.
  rewrite search_test_eq in Hs. cbn [Value Domain astype_str] in Hn, Hz, Hs.
  rewrite Hvalue in Hn. rewrite strip_lower, Hdomain in Hz.
  split; [| split; [done |]; split; [done |]].
  - apply andb_true_iff in Hn as [Hn _]. by apply bool_decide_eq_true in Hn.
  - intros marker Hm. destruct (contains marker _) eqn:E; [| done].
    assert (existsb (λ marker, contains marker (lower domain))
                    SEARCH_ENGINE_DOMAINS = true); [| congruence].
    apply existsb_elem_of. eauto.
Qed.

Lemma written_rows_postcondition_witness :
  ∃ value domain,
    Text (py "x") = Text value ∧ Text (py "shop.ru") = Text domain ∧
    strip value = value ∧ value ≠ [] ∧ strip domain = domain ∧
    (∃ zone p, zone ∈ RUSSIAN_ZONES ∧ lower domain = p ++ zone) ∧
    (∀ marker, marker ∈ SEARCH_ENGINE_DOMAINS →
               contains marker (lower domain) = false).
Proof.
  apply (written_rows_postcondition example_frame true __init__
           (clean_file (inr example_frame) true __init__).1 example_cleaned
           eq_refl
           (mkRow (Text (py "x")) (Text (py "shop.ru")) (Text (py "T1"))
                  (Text (py "D1")))).
  cbn. constructor.
Defined.

Lemma len_nonneg {A} (l : list A) : 0 ≤ len l.
Proof. unfold len. lia. Qed.

Lemma len_sublist {A} (l k : list A) : l `sublist_of` k → len l ≤ len k.
Proof. intros H%sublist_length. unfold len. lia. Qed.

Lemma len_filter_le {A} (f : A → bool) (l : list A) : len (List.filter f l) ≤ len l.
Proof. apply len_sublist, sublist_filter_bool. Qed.

Lemma percentage_bounds original_count final_count :
  0 ≤ final_count ≤ original_count →
  (0 <= percentage original_count final_count <= 100)%Q.
Proof.
  intros H. unfold percentage. case_bool_decide as Hn; [| done].
  assert (Ho : (0 < inject_Z original_count)%Q)
    by (rewrite <- (Zlt_Qlt 0); lia).
  split.
  - apply Qmult_le_0_compat; [| done].
    apply Qle_shift_div_l; [done |]. rewrite Qmult_0_l.
    rewrite <- (Zle_Qle 0). lia.
  - rewrite <- (Qmult_1_l 100) at 2. apply Qmult_le_compat_r; [| done].
    apply Qle_shift_div_r; [done |]. rewrite Qmult_1_l.
    rewrite <- Zle_Qle. lia.
Qed.

(** X5: the statistics of a run that returns.  At least one row was read;
    the four removal counters are not negative; the final count lies between
    0 and the original count; the percentage lies between 0 and 100. *)
Theorem statistics_bounds df writable self self' out :
  clean_file (inr df) writable self = (self', inr out) →
  ∃ n n_zone n_search n_duplicate n_empty n_final p,
    stats self' = mkStats (Some n) (Some n_zone) (Some n_search)
                          (Some n_duplicate) (Some n_empty) (Some n_final)
                          (Some p) ∧
    0 < n ∧ 0 ≤ n_zone ∧ 0 ≤ n_search ∧ 0 ≤ n_duplicate ∧ 0 ≤ n_empty ∧
    0 ≤ n_final ≤ n ∧ (0 <= p <= 100)%Q.
Proof.
  intros Hrun.
  destruct (clean_file_returns _ _ _ _ _ Hrun)
    as (t0 & Hc & -> & Hget & Hlen & Hne).
  rewrite (clean_file_valid _ _ _ _ Hc Hget Hne) in Hrun.
  injection Hrun as <- _. eexists _, _, _, _, _, _, _.
  split; [reflexivity |].
  set (t1 := List.filter zone_test t0) in *.
  set (t2 := List.filter (λ r, negb (search_test r)) t1).
  set (t3 := keep_first t2).
  set (t4 := map strip_key_columns (List.filter non_empty_test t3)).
  pose proof (len_filter_le zone_test t0) as H1. fold t1 in H1.
  pose proof (len_filter_le (λ r, negb (search_test r)) t1) as H2. fold t2 in H2.
  pose proof (len_sublist t3 t2 (drop_duplicates_from_sublist _ _)) as H3.
  pose proof (len_filter_le non_empty_test t3) as H4.
  assert (H5 : len t4 = len (List.filter non_empty_test t3))
    by (unfold len, t4; by rewrite length_map).
  pose proof (len_nonneg t4). pose proof (len_nonneg (List.filter search_test t1)).
  assert (0 < len t1) by (destruct t1; [done | unfold len; simpl; lia]).
  repeat (split; [lia |]). apply percentage_bounds. lia.
Qed.

Lemma statistics_bounds_witness :
  ∃ n n_final p,
    final (stats (clean_file (inr example_frame) true __init__).1) = Some n_final ∧
    original (stats (clean_file (inr example_frame) true __init__).1) = Some n ∧
    removed_percentage (stats (clean_file (inr example_frame) true __init__).1)
      = Some p ∧
    0 ≤ n_final ≤ n ∧ (0 <= p <= 100)%Q.
Proof.
  destruct (statistics_bounds example_frame true __init__
              (clean_file (inr example_frame) true __init__).1 example_cleaned
              eq_refl)
    as (n & nz & ns & nd & ne & nf & p & Hs & _ & _ & _ & _ & _ & Hf & Hp).
  exists n, nf, p. rewrite Hs. cbn [final original removed_percentage].
  split; [reflexivity |]. split; [reflexivity |]. split; [reflexivity |].
  split; [exact Hf | exact Hp].
Defined.

Lemma List_filter_filter_bool {A} (f g : A → bool) (l : list A) :
  List.filter f (List.filter g l) = List.filter (λ x, g x && f x) l.
Proof.
  induction l as [|x l IH]; simpl; [done |].
  destruct (g x); simpl; [| done]. rewrite IH. by destruct (f x).
Qed.

(** X6: the counters name the first stage that rejects a row.  The zone
    counter is the number of rows read whose Domain is of no kept zone; the
    search-engine counter is the number of rows read that are of a kept zone
    and contain a marker.  A row of a search engine outside the kept zones,
    such as "google.com", is counted by the zone counter only. *)
Theorem counters_by_first_rejecting_stage df writable self self' out :
  clean_file (inr df) writable self = (self', inr out) →
  let in_zone r :=
    existsb (λ zone, endswith (strip (lower (astype_str (Domain r)))) zone)
            RUSSIAN_ZONES in
  let has_marker r :=
    existsb (λ marker, contains marker (lower (astype_str (Domain r))))
            SEARCH_ENGINE_DOMAINS in
  ∃ t0,
    getitem_required df = ret (Rows t0) ∧
    removed_non_russian (stats self')
      = Some (len (List.filter (λ r, negb (in_zone r)) t0)) ∧
    removed_search (stats self')
      = Some (len (List.filter (λ r, in_zone r && has_marker r) t0)).
Proof.
  intros Hrun in_zone has_marker.
  destruct (clean_file_returns _ _ _ _ _ Hrun)
    as (t0 & Hc & -> & Hget & Hlen & Hne).
  rewrite (clean_file_valid _ _ _ _ Hc Hget Hne) in Hrun.
  injection Hrun as <- _. exists t0. split; [done |].
  cbn [stats removed_non_russian removed_search].
  assert (Hz : List.filter zone_test t0 = List.filter in_zone t0)
    by (apply filter_ext; intros r; apply zone_test_eq).
  split; f_equal.
  - pose proof (len_filter_split in_zone t0). rewrite Hz. lia.
  - rewrite List_filter_filter_bool. f_equal. apply filter_ext.
    intros r. by rewrite zone_test_eq, search_test_eq.
Qed.

Lemma counters_by_first_rejecting_stage_witness :
  ∃ t0,
    getitem_required example_frame = ret (Rows t0) ∧
    removed_non_russian (stats (clean_file (inr example_frame) true __init__).1)
      = Some (len (List.filter
           (λ r, negb (existsb
              (λ zone, endswith (strip (lower (astype_str (Domain r)))) zone)
              RUSSIAN_ZONES)) t0)) ∧
    removed_search (stats (clean_file (inr example_frame) true __init__).1)
      = Some (len (List.filter
           (λ r, existsb
              (λ zone, endswith (strip (lower (astype_str (Domain r)))) zone)
              RUSSIAN_ZONES &&
            existsb
              (λ marker, contains marker (lower (astype_str (Domain r))))
              SEARCH_ENGINE_DOMAINS) t0)).
Proof.
  exact (counters_by_first_rejecting_stage example_frame true __init__
           (clean_file (inr example_frame) true __init__).1 example_cleaned
           eq_refl).
Defined.

Lemma zone_test_domain_not_blank r :
  zone_test r = true → strip (astype_str (Domain r)) ≠ [].
Proof.
  intros (zone & p & Hzone & Hp)%zone_test_spec Hblank.
  rewrite strip_lower, Hblank in Hp. cbn in Hp.
  destruct p; [| discriminate]. cbn in Hp. subst zone.
  apply list_elem_of_In in Hzone. vm_compute in Hzone.
  destruct Hzone as [? | [? | [? | []]]]; discriminate.
Qed.

(** X7: in a run the empty-value stage never meets a blank Domain: every
    row that reaches it has passed the zone stage, so its stripped Domain is
    not empty.  The counter of the stage is therefore the number of rows,
    among those left by deduplication, whose stripped Value is empty. *)
Theorem empty_counter_counts_blank_values df writable self self' out :
  clean_file (inr df) writable self = (self', inr out) →
  ∃ t0,
    getitem_required df = ret (Rows t0) ∧
    let t3 := keep_first (List.filter (λ r, negb (search_test r))
                            (List.filter zone_test t0)) in
    (∀ r, r ∈ t3 → strip (astype_str (Domain r)) ≠ []) ∧
    removed_empty (stats self')
      = Some (len (List.filter
                     (λ r, bool_decide (strip (astype_str (Value r)) = [])) t3)).
Proof.
  intros Hrun.
  destruct (clean_file_returns _ _ _ _ _ Hrun)
    as (t0 & Hc & -> & Hget & Hlen & Hne).
  rewrite (clean_file_valid _ _ _ _ Hc Hget Hne) in Hrun.
  injection Hrun as <- _. exists t0. split; [done |]. intros t3.
  assert (Hdom : ∀ r, r ∈ t3 → strip (astype_str (Domain r)) ≠ []).
  { intros r Hr.
    apply (sublist_subseteq _ _ (drop_duplicates_from_sublist _ _)) in Hr.
    apply elem_of_List_filter in Hr as [Hr _].
    apply elem_of_List_filter in Hr as [_ Hz].
    by apply zone_test_domain_not_blank. }
  split; [done |]. cbn [stats removed_empty]. fold t3. f_equal.
  pose proof (len_filter_split non_empty_test t3) as Hsplit.
  assert (List.filter (λ r, negb (non_empty_test r)) t3 =
          List.filter (λ r, bool_decide (strip (astype_str (Value r)) = [])) t3)
    as <-; [| lia].
  apply filter_ext_in. intros r Hr%list_elem_of_In.
  rewrite non_empty_test_eq, negb_involutive.
  by rewrite (bool_decide_eq_false_2 _ (Hdom r Hr)), orb_false_r.
Qed.

Lemma empty_counter_counts_blank_values_witness :
  ∃ t0,
    getitem_required example_frame = ret (Rows t0) ∧
    let t3 := keep_first (List.filter (λ r, negb (search_test r))
                            (List.filter zone_test t0)) in
    (∀ r, r ∈ t3 → strip (astype_str (Domain r)) ≠ []) ∧
    removed_empty (stats (clean_file (inr example_frame) true __init__).1)
      = Some (len (List.filter
                     (λ r, bool_decide (strip (astype_str (Value r)) = [])) t3)).
Proof.
  exact (empty_counter_counts_blank_values example_frame true __init__
           (clean_file (inr example_frame) true __init__).1 example_cleaned
           eq_refl).
Defined.

(** ** How the stages compose *)

(** X8: deduplication runs before the empty-value stage, so a Domain whose
    first row has a blank Value is lost: that row is the one deduplication
    keeps, the empty-value stage then drops it, and no later row with the
    same Domain cell is left. *)
Theorem blank_first_occurrence_shadows pre r post :
  Domain r ∉ map Domain pre →
  strip (astype_str (Value r)) = [] →
  ∃ kept removed,
    _drop_empty_values (drop_duplicates (Rows (pre ++ r :: post)))
      = ret (Rows (map strip_key_columns kept), removed) ∧
    kept `sublist_of` pre ++ post ∧
    ∀ x, x ∈ kept → Domain x ≠ Domain r.
Proof.
  intros Hfirst Hblank. cbn [drop_duplicates].
  rewrite _drop_empty_values_eq. eexists _, _. split; [reflexivity |].
  unfold keep_first. rewrite drop_duplicates_from_app, app_nil_r.
  cbn [drop_duplicates_from]. rewrite bool_decide_eq_false_2 by done.
  rewrite List.filter_app. cbn [List.filter].
  assert (non_empty_test r = false) as ->.
  { rewrite non_empty_test_eq. by rewrite (bool_decide_eq_true_2 _ Hblank). }
  split.
  - apply sublist_app.
    + etrans; [apply sublist_filter_bool | apply drop_duplicates_from_sublist].
    + etrans; [apply sublist_filter_bool | apply drop_duplicates_from_sublist].
  - intros x [Hx | Hx]%elem_of_app;
      apply elem_of_List_filter in Hx as [Hx _]; intros Heq.
    + apply Hfirst. rewrite <- Heq. apply list_elem_of_fmap_2.
      by apply (sublist_subseteq _ _ (drop_duplicates_from_sublist [] pre)).
    + apply drop_duplicates_from_fresh in Hx. apply Hx. rewrite Heq.
      constructor.
Qed.

Lemma blank_first_occurrence_shadows_witness :
  ∃ kept removed,
    _drop_empty_values (drop_duplicates (Rows
      [ mkRow (Text []) (Text (py "shop.ru")) NaN NaN;
        mkRow (Text (py "x")) (Text (py "shop.ru")) NaN NaN ]))
      = ret (Rows (map strip_key_columns kept), removed) ∧
    kept `sublist_of` [ mkRow (Text (py "x")) (Text (py "shop.ru")) NaN NaN ] ∧
    ∀ x, x ∈ kept → Domain x ≠ Text (py "shop.ru").
Proof.
  apply (blank_first_occurrence_shadows []
           (mkRow (Text []) (Text (py "shop.ru")) NaN NaN)
           [ mkRow (Text (py "x")) (Text (py "shop.ru")) NaN NaN ]).
  - cbn. apply not_elem_of_nil.
  - reflexivity.
Defined.

(** X9: deduplication is idempotent: on a frame it has left, it removes
    nothing. *)
Theorem drop_duplicates_idempotent df :
  drop_duplicates (drop_duplicates df) = drop_duplicates df.
Proof.
  destruct df as [rows |]; [| done]. cbn [drop_duplicates]. f_equal.
  apply keep_first_NoDup_id, drop_duplicates_from_NoDup.
Qed.

(** ** Columns *)

Lemma filter_ext_elem_of {A} (P Q : A → Prop)
    `{∀ x, Decision (P x)} `{∀ x, Decision (Q x)} (l : list A) :
  (∀ x, x ∈ l → P x ↔ Q x) → filter P l = filter Q l.
Proof.
  induction l as [|x l IH]; intros Hext; [done |].
  rewrite !filter_cons.
  assert (HPQ : P x ↔ Q x) by (apply Hext; constructor).
  rewrite IH by (intros y Hy; apply Hext; by constructor).
  destruct (decide (P x)), (decide (Q x)); tauto.
Qed.

(** A run looks at the sheet through three things only: which required
    columns are absent, how many rows there are, and the projection. *)
Lemma clean_file_ext df df' writable self :
  (∀ column, column ∈ REQUIRED_COLUMNS →
             column ∈ columns df ↔ column ∈ columns df') →
  len (data df) = len (data df') →
  getitem_required df = getitem_required df' →
  clean_file (inr df) writable self = clean_file (inr df') writable self.
Proof.
  intros Hcols Hlen Hget.
  assert (Hmissing :
    filter (λ column, column ∉ columns df) REQUIRED_COLUMNS =
    filter (λ column, column ∉ columns df') REQUIRED_COLUMNS).
  { apply filter_ext_elem_of. intros c Hc. by rewrite (Hcols c Hc). }
  unfold clean_file, bind, read_excel, ret at 1 3, set_stats,
    _validate_columns.
  by rewrite Hmissing, Hlen, Hget.
Qed.

Lemma get_loc_cons_ne name extra cols :
  extra ≠ name → get_loc name (extra :: cols) = S <$> get_loc name cols.
Proof. intros H. cbn. by rewrite decide_False. Qed.

Lemma map_zip_with_cons (f g : list cell → Row) cells rows :
  length cells = length rows →
  (∀ c row, f (c :: row) = g row) →
  map f (zip_with cons cells rows) = map g rows.
Proof.
  intros Hlen Hfg. revert cells Hlen.
  induction rows as [|row rows IH]; intros [|c cells] Hlen; try done.
  cbn. rewrite Hfg, IH; [done |]. by injection Hlen.
Qed.

(** X10: a column that is not one of the required four is ignored.  Putting
    such a column in front of the sheet changes neither the outcome of the
    run, nor the table written, nor the statistics. *)
Theorem extra_column_ignored name cells df writable self :
  name ∉ REQUIRED_COLUMNS →
  length cells = length (data df) →
  clean_file (inr (insert_first name cells df)) writable self =
  clean_file (inr df) writable self.
Proof.
  intros Hname Hlen. apply clean_file_ext.
  - intros c Hc. cbn [insert_first columns]. rewrite elem_of_cons.
    split; [| auto]. intros [-> | ?]; [done | done].
  - unfold len. cbn [insert_first data].
    by rewrite length_zip_with, Hlen, Nat.min_id.
  - assert (Hne : ∀ c, c ∈ REQUIRED_COLUMNS → name ≠ c)
      by (intros c Hc ->; done).
    unfold getitem_required. cbn [insert_first columns data].
    rewrite !get_loc_cons_ne
      by (apply Hne, list_elem_of_In; vm_compute; auto 6).
    destruct (get_loc (py "Значение") (columns df)) as [iv |]; [| done].
    destruct (get_loc (py "Домен") (columns df)) as [id |]; [| done].
    destruct (get_loc (py "Заголовок") (columns df)) as [it |]; [| done].
    destruct (get_loc (py "META Description") (columns df)) as [im |]; [| done].
    cbn [fmap option_fmap option_map]. do 2 f_equal.
    by apply map_zip_with_cons.
Qed.

Lemma extra_column_ignored_witness :
  clean_file
    (inr (insert_first (py "Телефон")
            [Text (py "1"); Text (py "2"); Text (py "3"); NaN] example_frame))
    true __init__ =
  clean_file (inr example_frame) true __init__.
Proof.
  apply extra_column_ignored.
  - intros H. apply list_elem_of_In in H. vm_compute in H.
    destruct H as [H | [H | [H | [H | []]]]]; discriminate H.
  - reflexivity.
Defined.

(** ** The two tests on a Domain *)

Lemma lstrip_spaces_app ws s :
  Forall (λ c, is_space c = true) ws → lstrip (ws ++ s) = lstrip s.
Proof. induction 1 as [|c ws Hc _ IH]; cbn; [done |]. by rewrite Hc. Qed.

Lemma lstrip_all_spaces ws :
  Forall (λ c, is_space c = true) ws → lstrip ws = [].
Proof.
  intros H. rewrite <- (app_nil_r ws). by rewrite lstrip_spaces_app.
Qed.

(** [strip] finds the middle of any string written as spaces, a text that
    neither starts nor ends with a space, spaces. *)
Lemma strip_unique a m b :
  Forall (λ c, is_space c = true) a → Forall (λ c, is_space c = true) b →
  head_not_space m → head_not_space (rev m) →
  strip (a ++ m ++ b) = m.
Proof.
  intros Ha Hb Hm Hm'. unfold strip. rewrite lstrip_spaces_app by done.
  destruct m as [|c m].
  - change ([] ++ b) with b. by rewrite lstrip_all_spaces.
  - rewrite lstrip_fixed by done. unfold rstrip.
    rewrite rev_app_distr, lstrip_spaces_app by by apply Forall_rev.
    rewrite lstrip_fixed by done. apply rev_involutive.
Qed.

Lemma strip_split s :
  ∃ a b, s = a ++ strip s ++ b ∧
         Forall (λ c, is_space c = true) a ∧ Forall (λ c, is_space c = true) b.
Proof.
  destruct (lstrip_split s) as (a & Ha & Hsa).
  destruct (rstrip_split (lstrip s)) as (b & Hb & Hsb).
  exists a, b. split; [| done]. unfold strip. by rewrite <- Hb.
Qed.

Lemma strip_padding ws1 ws2 s :
  Forall (λ c, is_space c = true) ws1 → Forall (λ c, is_space c = true) ws2 →
  strip (ws1 ++ s ++ ws2) = strip s.
Proof.
  intros H1 H2. destruct (strip_split s) as (a & b & Hs & Ha & Hb).
  rewrite Hs at 1.
  replace (ws1 ++ (a ++ strip s ++ b) ++ ws2)
    with ((ws1 ++ a) ++ strip s ++ (b ++ ws2))
    by (by rewrite <- !app_assoc).
  apply strip_unique.
  - by apply Forall_app.
  - by apply Forall_app.
  - unfold strip. apply rstrip_head, lstrip_head.
  - apply rstrip_last.
Qed.

(** X11: the zone test and the search-engine test do not see the case of
    the letters nor spaces around the domain: a domain, the same domain
    with spaces before and after it, and its lower-cased form give the same
    answer. *)
Theorem domain_tests_ignore_case_and_padding ws1 ws2 domain :
  Forall (λ c, is_space c = true) ws1 →
  Forall (λ c, is_space c = true) ws2 →
  _is_russian_domain (ws1 ++ domain ++ ws2) = _is_russian_domain domain ∧
  _is_russian_domain (lower domain) = _is_russian_domain domain ∧
  _is_search_engine_domain (ws1 ++ domain ++ ws2)
    = _is_search_engine_domain domain ∧
  _is_search_engine_domain (lower domain) = _is_search_engine_domain domain.
Proof.
  intros H1 H2. unfold _is_russian_domain, _is_search_engine_domain.
  by rewrite !strip_padding, !strip_lower, !lower_idemp by done.
Qed.

Lemma domain_tests_ignore_case_and_padding_witness :
  _is_russian_domain (py "  shop.ru ") = _is_russian_domain (py "shop.ru").
Proof.
  apply (domain_tests_ignore_case_and_padding (py "  ") (py " ") (py "shop.ru")).
  - repeat constructor.
  - repeat constructor.
Defined.

(** ** Missing cells *)

(** X12: an empty cell of the sheet is read as a missing value, which
    [astype(str)] turns into the text "nan".  So a row without Domain never
    passes the zone stage, and a missing Value does not count as empty: the
    empty-value stage keeps the row whenever its Domain is not blank, and
    writes "nan" as its Value. *)
Theorem missing_cells :
  (∀ t, ∃ filtered_df removed,
     _filter_russian_domains (Rows t) = ret (filtered_df, removed) ∧
     ∀ r, r ∈ rows_of filtered_df → Domain r ≠ NaN) ∧
  (∀ t r, ∃ non_empty_df removed,
     _drop_empty_values (Rows t) = ret (non_empty_df, removed) ∧
     (r ∈ t → Value r = NaN → strip (astype_str (Domain r)) ≠ [] →
      mkRow (Text str_nan) (Text (strip (astype_str (Domain r))))
            (Title r) (MetaDescription r) ∈ rows_of non_empty_df)).
Proof.
  split.
  - intros t. eexists _, _. split; [apply _filter_russian_domains_eq |].
    rewrite rows_of_nonempty_match by (by intros ->).
    intros [v d ti m] [_ Hz]%elem_of_List_filter. cbn. by intros ->.
  - intros t r. eexists _, _. split; [apply _drop_empty_values_eq |].
    intros Hr Hv Hd. cbn [rows_of].
    assert (E : mkRow (Text str_nan) (Text (strip (astype_str (Domain r))))
                      (Title r) (MetaDescription r) = strip_key_columns r)
      by (unfold strip_key_columns; by rewrite Hv).
    rewrite E. apply list_elem_of_fmap_2, elem_of_List_filter.
    split; [done |]. unfold non_empty_test. rewrite Hv.
    by rewrite bool_decide_eq_true_2, bool_decide_eq_true_2.
Qed.

Lemma missing_cells_witness :
  ∃ non_empty_df removed,
    _drop_empty_values (Rows [mkRow NaN (Text (py "a.ru")) NaN NaN])
      = ret (non_empty_df, removed) ∧
    mkRow (Text (py "nan")) (Text (py "a.ru")) NaN NaN ∈ rows_of non_empty_df.
Proof.
  destruct (proj2 missing_cells [mkRow NaN (Text (py "a.ru")) NaN NaN]
              (mkRow NaN (Text (py "a.ru")) NaN NaN))
    as (non_empty_df & removed & Hrun & Hin).
  exists non_empty_df, removed. split; [exact Hrun |].
  apply Hin; [constructor | reflexivity | vm_compute; discriminate].
Defined.

(** * Properties of the bot *)

(** ** Paths *)



Lemma str_split_whole sep s : sep ∉ s → str_split sep s = [s].
Proof.
  induction s as [|c s IH]; intros H; [done |]. cbn.
  rewrite IH by (intros ?; apply H; by constructor).
  destruct (N.eqb_spec c sep) as [-> | _]; [| done].
  destruct H. constructor.
Qed.




Lemma rfind_nonneg c s : 0 ≤ rfind c s → c ∈ s.
Proof.
  induction s as [|x s IH]; cbn; [lia |].
  destruct (Z.leb_spec 0 (rfind c s)); [intros _; right; auto |].
  destruct (N.eqb_spec x c) as [-> | _]; [intros _; constructor | lia].
Qed.

Lemma rfind_last c a b : c ∉ b → rfind c (a ++ c :: b) = len a.
Proof.
  intros Hb. assert (Hneg : rfind c b < 0).
  { destruct (Z.ltb_spec (rfind c b) 0); [done |]. by apply rfind_nonneg in H. }
  induction a as [|x a IH]; cbn.
  - destruct (Z.leb_spec 0 (rfind c b)); [lia |]. by rewrite N.eqb_refl.
  - rewrite IH. unfold len. cbn [length].
    destruct (Z.leb_spec 0 (Z.of_nat (length a))); lia.
Qed.

(** The name, suffix and stem of a file name [base.ext]. *)
Lemma path_of_base_ext base ext :
  base ≠ [] → ext ≠ [] → 47%N ∉ base → 47%N ∉ ext → 46%N ∉ ext →
  path_suffix (base ++ 46%N :: ext) = 46%N :: ext ∧
  path_stem (base ++ 46%N :: ext) = base.
Proof.
  intros Hbase Hext Hb He Hdot.
  assert (Hname : path_name (base ++ 46%N :: ext) = base ++ 46%N :: ext).
  { unfold path_name. rewrite str_split_whole.
    - cbn. rewrite !bool_decide_eq_false_2; [done | |].
      + destruct base as [|? [|]]; [done | by destruct ext | done].
      + by destruct base.
    - intros [? | [? | ?]%elem_of_cons]%elem_of_app; done. }
  unfold path_suffix, path_stem. rewrite Hname, rfind_last by done.
  assert (Hcond : (0 <? len base) && (len base <? len (base ++ 46%N :: ext) - 1)
                  = true).
  { apply andb_true_iff. unfold len. rewrite length_app. cbn [length].
    destruct base; [done |]. destruct ext; [done |]. cbn [length].
    split; [apply Z.ltb_lt | apply Z.ltb_lt]; lia. }
  rewrite Hcond. unfold len. rewrite Nat2Z.id.
  by rewrite drop_app_length, take_app_length.
Qed.

(** ** Gates *)

(** X13: the size gate.  A document is refused as too large exactly when
    Telegram reports a size above [MAX_FILE_SIZE]; the file name plays no
    part, and a document whose size is not reported is never refused for
    its size. *)
Theorem too_large_iff update msg doc world :
  message update = Some msg → document msg = Some doc →
  handle_document update world = [reply_text too_large_text] ↔
  ∃ size, file_size doc = Some size ∧ MAX_FILE_SIZE < size.
Proof.
  intros Hmsg Hdoc. unfold handle_document. rewrite Hmsg, Hdoc.
  destruct (file_size doc) as [size |].
  - destruct (Z.ltb_spec MAX_FILE_SIZE size) as [Hlt | Hle].
    + rewrite bool_decide_eq_true_2 by (unfold MAX_FILE_SIZE in Hlt; lia).
      cbn. split; [eauto | done].
    + rewrite andb_false_r. split.
      * destruct (negb _); [discriminate |]. intros [=].
      * intros (size' & [= <-] & ?). lia.
  - split.
    + destruct (negb _); [discriminate |]. intros [=].
    + intros (size' & [=] & _).
Qed.

Lemma too_large_iff_witness :
  handle_document (document_update "report.xlsx" 20000000)
                  (world_with example_frame)
  = [reply_text too_large_text].
Proof.
  apply (too_large_iff (document_update "report.xlsx" 20000000)
           (mkMessage (Some (mkDocument (Some (py "report.xlsx")) (Some 20000000))))
           (mkDocument (Some (py "report.xlsx")) (Some 20000000))
           (world_with example_frame) eq_refl eq_refl).
  exists 20000000. split; [reflexivity | reflexivity].
Defined.

(** X14: the extension gate does not see the case of the letters.  A
    document named [base.ext], where [ext] is "xlsx" or "xls" in any mix of
    cases, is processed when its size passes; the output is named
    [cleaned_base.xlsx] whatever the extension was, and the temporary input
    keeps the lower-cased extension. *)
Theorem accepted_extension base ext size user world :
  base ≠ [] → 47%N ∉ base → 47%N ∉ ext → 46%N ∉ ext →
  lower ext = py "xlsx" ∨ lower ext = py "xls" →
  size ≤ MAX_FILE_SIZE →
  handle_document
    (mkUpdate (Some (mkMessage (Some
       (mkDocument (Some (base ++ 46%N :: ext)) (Some size))))) (Some user))
    world =
  reply_text processing_text ::
  process (py "cleaned_" ++ base ++ py ".xlsx") world ++
  [ delete_message;
    unlink_if_exists (str_int user ++ py "_" ++ uuid_hex world
                      ++ 46%N :: lower ext);
    unlink_if_exists (py "cleaned_" ++ base ++ py ".xlsx") ].
Proof.
  intros Hbase Hb He Hdot Hext Hsize.
  assert (Hne : ext ≠ []) by (intros ->; by destruct Hext).
  destruct base as [|b0 base']; [done |].
  destruct (path_of_base_ext (b0 :: base') ext) as [Hsuffix Hstem]; try done.
  cbn [app] in Hsuffix, Hstem.
  unfold handle_document. cbn [message document file_name file_size
    effective_user app].
  rewrite Hsuffix, Hstem.
  replace (MAX_FILE_SIZE <? size) with false
    by (symmetry; apply Z.ltb_ge; lia).
  rewrite andb_false_r.
  rewrite bool_decide_eq_true_2; [done |].
  change (lower (46%N :: ext)) with (46%N :: lower ext).
  apply list_elem_of_In. destruct Hext as [-> | ->]; vm_compute; auto.
Qed.

Lemma accepted_extension_witness :
  handle_document (document_update "report.XLSX" 100) (world_with example_frame)
  = reply_text processing_text ::
    process (py "cleaned_report.xlsx") (world_with example_frame) ++
    [ delete_message; unlink_if_exists (py "42_0f.xlsx");
      unlink_if_exists (py "cleaned_report.xlsx") ].
Proof.
  apply (accepted_extension (py "report") (py "XLSX") 100 42
           (world_with example_frame)).
  - discriminate.
  - intros H. apply list_elem_of_In in H. vm_compute in H. intuition discriminate.
  - intros H. apply list_elem_of_In in H. vm_compute in H. intuition discriminate.
  - intros H. apply list_elem_of_In in H. vm_compute in H. intuition discriminate.
  - left. reflexivity.
  - unfold MAX_FILE_SIZE. lia.
Defined.

(** ** What the user receives *)




(** X16: a sheet that lacks required columns.  The user receives one reply,
    the error prefix followed by the message of the cleaner, in which every
    absent required column is named; no statistics and no file are sent. *)
Theorem schema_error_reported name world df :
  download world = inr tt → sheet world = inr df →
  (∃ column, column ∈ REQUIRED_COLUMNS ∧ column ∉ columns df) →
  ∃ text,
    process name world = [reply_text text] ∧
    text = error_prefix ++ missing_columns_prefix ++
           join (py ", ")
                (filter (λ column, column ∉ columns df) REQUIRED_COLUMNS) ∧
    ∀ column, column ∈ REQUIRED_COLUMNS → column ∉ columns df →
              contains column text = true.
Proof.
  intros Hdownload Hsheet (c & Hc & Hn).
  assert (Hsub : ¬ REQUIRED_COLUMNS ⊆ columns df) by (intros H; by apply Hn, H).
  eexists. unfold process. rewrite Hdownload, Hsheet.
  rewrite clean_file_invalid by done. cbn [on_exception].
  split; [reflexivity |]. split; [reflexivity |].
  intros column H1 H2. apply contains_app_r, contains_app_r, contains_join.
  by apply list_elem_of_filter.
Qed.

Lemma schema_error_reported_witness :
  ∃ text,
    process (py "cleaned_a.xlsx") (world_with domain_only_frame)
      = [reply_text text] ∧
    contains (py "Значение") text = true.
Proof.
  destruct (schema_error_reported (py "cleaned_a.xlsx")
              (world_with domain_only_frame) domain_only_frame
              eq_refl eq_refl)
    as (text & Hrun & _ & Hall).
  - exists (py "Значение"). split.
    + apply list_elem_of_In. vm_compute. auto.
    + intros H. apply list_elem_of_In in H. vm_compute in H.
      destruct H as [H | []]. discriminate H.
  - exists text. split; [exact Hrun |]. apply Hall.
    + apply list_elem_of_In. vm_compute. auto.
    + intros H. apply list_elem_of_In in H. vm_compute in H.
      destruct H as [H | []]. discriminate H.
Defined.

(** X17: a well-formed sheet without any row of a kept zone, the sheet
    with the header row only included.  The cleaner raises [KeyError], so
    the user receives the text for an unexpected error, and neither
    statistics nor a file. *)
Theorem sheet_without_kept_zone_reported_as_unexpected name world df :
  download world = inr tt → sheet world = inr df →
  REQUIRED_COLUMNS ⊆ columns df →
  (∀ t0 r zone, getitem_required df = ret (Rows t0) → r ∈ t0 →
                zone ∈ RUSSIAN_ZONES →
                endswith (strip (lower (astype_str (Domain r)))) zone = false) →
  process name world = [reply_text unexpected_text].
Proof.
  intros Hdownload Hsheet Hc Hzone.
  destruct (getitem_required_ok df Hc) as (t0 & Hget & _).
  assert (E : List.filter zone_test t0 = []).
  { destruct (List.filter zone_test t0) as [|r l] eqn:E; [done |].
    assert (Hr : r ∈ List.filter zone_test t0) by (rewrite E; constructor).
    apply elem_of_List_filter in Hr as [Hr Hz].
    rewrite zone_test_eq in Hz. apply existsb_elem_of in Hz as (zone & Hin & Hz).
    by rewrite (Hzone t0 r zone Hget Hr Hin) in Hz. }
  unfold process. rewrite Hdownload, Hsheet.
  rewrite (clean_file_no_zone_rows _ _ _ _ Hc Hget E). by destruct t0.
Qed.

Lemma sheet_without_kept_zone_reported_as_unexpected_witness :
  process (py "cleaned_a.xlsx") (world_with empty_frame)
  = [reply_text unexpected_text].
Proof.
  apply (sheet_without_kept_zone_reported_as_unexpected
           (py "cleaned_a.xlsx") (world_with empty_frame) empty_frame
           eq_refl eq_refl).
  - intros c Hc. exact Hc.
  - intros t0 r zone Hget Hr _. apply ret_Rows_inj in Hget. subst t0.
    by apply not_elem_of_nil in Hr.
Defined.

(** X18: a run that returns.  The user receives the report of the
    statistics of this run, then the table the run has written, under the
    output name. *)
Theorem cleaned_file_sent name world df self' out :
  download world = inr tt → sheet world = inr df →
  clean_file (inr df) (writable_output world) __init__ = (self', inr out) →
  ∃ report,
    get_stats_message self' = (self', inr report) ∧
    process name world =
      [reply_text report; reply_document name done_caption out].
Proof.
  intros Hdownload Hsheet Hrun.
  destruct (fresh_cleaner_message_returns (inr df) (writable_output world))
    as [report Hreport].
  rewrite Hrun in Hreport. cbn [fst] in Hreport.
  exists report. split; [done |].
  unfold process. by rewrite Hdownload, Hsheet, Hrun, Hreport.
Qed.

Lemma cleaned_file_sent_witness :
  ∃ report,
    process (py "cleaned_a.xlsx") (world_with example_frame) =
      [reply_text report;
       reply_document (py "cleaned_a.xlsx") done_caption example_cleaned].
Proof.
  destruct (cleaned_file_sent (py "cleaned_a.xlsx") (world_with example_frame)
              example_frame
              (clean_file (inr example_frame) true __init__).1 example_cleaned
              eq_refl eq_refl eq_refl)
    as (report & _ & H).
  by exists report.
Defined.
